(** * generate_xls.py: JSON rows to a single-sheet .xls workbook

    A shallow embedding of [backend/routes/generate_xls.py] and the
    properties of its command-line behaviour.

    The script reads a JSON file, takes its ["rows"] field, writes every
    cell as text into the sheet ['Sheet1'] of a fresh xlwt workbook, saves
    the workbook and prints the number of rows.  Everything the script
    does itself is modelled here; what the Python runtime and the [json]
    and [xlwt] libraries decide (the parser, [repr] of floats and
    containers, whether the library refuses a cell or a save, the bytes
    of a saved workbook) is the [Platform] interface below. *)

From Stdlib Require Import Floats.SpecFloat Strings.Ascii.
From stdpp Require Import base strings list gmap pretty.

Open Scope string_scope.
Open Scope list_scope.
Open Scope nat_scope.

(** ** Python values as [json.load] builds them *)

#[warnings="-register-all"]
Inductive pyval : Type :=
  | PNone
  | PBool (b : bool)
  | PInt (z : Z)
  | PFloat (f : spec_float)
  | PStr (s : string)
  | PList (items : list pyval)
  | PDict (bindings : list (string * pyval)).

(** [type(v).__name__], as it shows in the interpreter's error messages. *)
Definition type_name (v : pyval) : string :=
  match v with
  | PNone => "NoneType"
  | PBool _ => "bool"
  | PInt _ => "int"
  | PFloat _ => "float"
  | PStr _ => "str"
  | PList _ => "list"
  | PDict _ => "dict"
  end.

(** Exceptions deriving from [Exception]: the class name and [str(e)]. *)
Record exn : Type := Exn { exn_class : string; exn_str : string }.

Definition AttributeError (v : pyval) (attr : string) : exn :=
  Exn "AttributeError"
      ("'" +:+ type_name v +:+ "' object has no attribute '" +:+ attr +:+ "'").

Definition TypeError_not_iterable (v : pyval) : exn :=
  Exn "TypeError" ("'" +:+ type_name v +:+ "' object is not iterable").

(** ** The xlwt workbook

    A sheet is the log of the [write] calls it received, oldest first;
    a workbook owns its sheets, and the handle [add_sheet] returns is the
    sheet's index in the workbook, so that a write through the handle is
    seen by the workbook that is saved. *)

Record sheet : Type := Sheet { sheet_name : string; sheet_cells : list (nat * nat * string) }.

Record workbook : Type := Workbook { wb_encoding : string; wb_sheets : list sheet }.

(** Appending a batch of cells to the sheet behind a handle. *)
Definition append_cells (sh : nat) (new : list (nat * nat * string)) (wb : workbook) : workbook :=
  Workbook (wb_encoding wb)
           (alter (λ s, Sheet (sheet_name s) (sheet_cells s ++ new)) sh (wb_sheets wb)).

Definition add_sheet (wb : workbook) (name : string) : workbook * nat :=
  (Workbook (wb_encoding wb) (wb_sheets wb ++ [Sheet name []]), length (wb_sheets wb)).

Definition record_cell (r c : nat) (label : string) (sh : sheet) : sheet :=
  Sheet (sheet_name sh) (sheet_cells sh ++ [(r, c, label)]).

(** The text at position (r, c) of a sheet: the latest write there. *)
Fixpoint find_cell (r c : nat) (cells : list (nat * nat * string)) : option string :=
  match cells with
  | [] => None
  | (r', c', label) :: rest =>
      match find_cell r c rest with
      | Some later => Some later
      | None => if decide (r' = r ∧ c' = c) then Some label else None
      end
  end.

Definition cell_at (sh : sheet) (r c : nat) : option string :=
  find_cell r c (sheet_cells sh).

(** ** The process and its environment *)

Inductive event : Type :=
  | EvOpen (path : string)
  | EvSave (path : string)
  | EvStdout (line : string)
  | EvStderr (line : string).

Record world : Type := World { files : gmap string string; trace : list event }.

Definition emit (e : event) (w : world) : world :=
  World (files w) (trace w ++ [e]).

Definition stdout_of (t : list event) : list string :=
  omap (λ e, match e with EvStdout l => Some l | _ => None end) t.

Definition stderr_of (t : list event) : list string :=
  omap (λ e, match e with EvStderr l => Some l | _ => None end) t.

(** What the runtime and the libraries decide. *)
Class Platform : Type := {
  (** [repr(v)], which [str] falls back to for floats, lists and dicts *)
  py_repr : pyval → string;
  (** [json.load] on the text of a file: decoding and parsing *)
  json_load : string → exn + pyval;
  (** xlwt's refusal of [sheet.write(r, c, label)], if any; it depends on
      the call alone: xlwt's one check against the sheet, that no cell is
      written twice, cannot fire on the positions [enumerate] gives
      ([grid_cells_positions_NoDup]) *)
  xl_write_err : nat → nat → string → option exn;
  (** a failing [workbook.save(path)]: the exception, and the bytes the
      failed save left at [path], if any *)
  xl_save_err : workbook → string → option (exn * option string);
  (** the BIFF8/OLE bytes of a workbook *)
  biff8 : workbook → string
}.

(** ** Control flow: normal return, a raised exception, [sys.exit] *)

Inductive result (A : Type) : Type :=
  | Ok (a : A)
  | Raised (e : exn)
  | Exited (code : Z).
Arguments Ok {A} a.
Arguments Raised {A} e.
Arguments Exited {A} code.

Definition M (A : Type) : Type := world → result A * world.

#[export] Instance M_ret : MRet M := λ A a w, (Ok a, w).

#[export] Instance M_bind : MBind M := λ A B k m w,
  match m w with
  | (Ok a, w') => k a w'
  | (Raised e, w') => (Raised e, w')
  | (Exited code, w') => (Exited code, w')
  end.

Definition raise {A} (e : exn) : M A := λ w, (Raised e, w).

Definition sys_exit {A} (code : Z) : M A := λ w, (Exited code, w).

(** [try: m except Exception as e: h e]; [SystemExit] is not an
    [Exception] and passes through. *)
Definition try_except {A} (m : M A) (h : exn → M A) : M A := λ w,
  match m w with
  | (Raised e, w') => h e w'
  | other => other
  end.

(** Code that only computes, and may raise: [exn + A]. *)
#[export] Instance exn_ret : MRet (sum exn) := λ A a, inr a.

#[export] Instance exn_bind : MBind (sum exn) := λ A B k m,
  match m with inl e => inl e | inr a => k a end.

Definition of_sum {A} (x : exn + A) : M A :=
  match x with inl e => raise e | inr a => mret a end.

Definition print_stdout (line : string) : M unit := λ w, (Ok tt, emit (EvStdout line) w).

Definition print_stderr (line : string) : M unit := λ w, (Ok tt, emit (EvStderr line) w).

(** ** The Python built-ins the script relies on *)

(** [bool(v)], as [not rows] tests it. *)
Definition truthy (v : pyval) : bool :=
  match v with
  | PNone => false
  | PBool b => b
  | PInt z => negb (z =? 0)%Z
  | PFloat (S754_zero _) => false
  | PFloat _ => true
  | PStr s => negb (String.eqb s "")
  | PList items => match items with [] => false | _ => true end
  | PDict bindings => match bindings with [] => false | _ => true end
  end.

(** A dict is kept as its bindings; of two bindings of one key the first
    is the dict's. *)
Fixpoint dict_lookup (key : string) (bindings : list (string * pyval)) : option pyval :=
  match bindings with
  | [] => None
  | (k, v) :: rest => if decide (k = key) then Some v else dict_lookup key rest
  end.

Definition dict_keys (bindings : list (string * pyval)) : list string :=
  remove_dups (bindings.*1).

(** [data.get(key, default)]: only a dict has [get]. *)
Definition py_get (data : pyval) (key : string) (default : pyval) : exn + pyval :=
  match data with
  | PDict bindings => inr (from_option id default (dict_lookup key bindings))
  | _ => inl (AttributeError data "get")
  end.

(** A [str] is kept as its UTF-8 bytes.  A byte of the form 10xxxxxx
    continues the code point opened by the byte before it. *)
Definition is_continuation (a : Ascii.ascii) : bool :=
  match a with
  | Ascii.Ascii _ _ _ _ _ _ b6 b7 => b7 && negb b6
  end.

(** The bytes of [s] from its first code point on, split by code point,
    and before them the continuation bytes that open none. *)
Fixpoint code_points (s : string) : string * list string :=
  match s with
  | EmptyString => (EmptyString, [])
  | String a rest =>
      let '(pending, points) := code_points rest in
      if is_continuation a then (String a pending, points)
      else (EmptyString, String a pending :: points)
  end.

(** The characters of a [str], each a [str] of length one: its code
    points.  (Bytes that open no code point do not occur in a [str];
    they are kept together as a first item.) *)
Definition chars (s : string) : list string :=
  match code_points s with
  | (EmptyString, points) => points
  | (stray, points) => stray :: points
  end.

(** [iter(v)], drained: what a [for] loop over [v] visits. *)
Definition py_iter (v : pyval) : exn + list pyval :=
  match v with
  | PList items => inr items
  | PStr s => inr (PStr <$> chars s)
  | PDict bindings => inr (PStr <$> dict_keys bindings)
  | _ => inl (TypeError_not_iterable v)
  end.

(** [l[i]] on a list of strings. *)
Definition py_index (l : list string) (i : nat) : exn + string :=
  match l !! i with
  | Some x => inr x
  | None => inl (Exn "IndexError" "list index out of range")
  end.

(** [len(v)] of a value that has a length. *)
Definition py_len (v : pyval) : exn + nat :=
  match v with
  | PList items => inr (length items)
  | PStr s => inr (length (chars s))
  | PDict bindings => inr (length (dict_keys bindings))
  | _ => inl (Exn "TypeError" ("object of type '" +:+ type_name v +:+ "' has no len()"))
  end.

(** ** The script *)

Section Script.
Context `{Platform}.

(** [str(v)] *)
Definition py_str (v : pyval) : string :=
  match v with
  | PNone => "None"
  | PBool true => "True"
  | PBool false => "False"
  | PInt z => pretty z
  | PStr s => s
  | PFloat _ | PList _ | PDict _ => py_repr v
  end.

(** Lines 43-47: the text written for a cell. *)
Definition cell_text (cell_value : pyval) : string :=
  match cell_value with
  | PNone => ""
  | _ => py_str cell_value
  end.

(** [open(path, 'r', encoding='utf-8')] followed by reading the file. *)
Definition read_file (path : string) : M string := λ w,
  match files w !! path with
  | Some text => (Ok text, emit (EvOpen path) w)
  | None =>
      (Raised (Exn "FileNotFoundError"
                   ("[Errno 2] No such file or directory: " +:+ py_repr (PStr path))),
       emit (EvOpen path) w)
  end.

(** [sheet.write(r, c, label)] through the handle [sh] of workbook [wb]. *)
Definition sheet_write (sh r c : nat) (label : string) (wb : workbook) : exn + workbook :=
  match xl_write_err r c label with
  | Some e => inl e
  | None => inr (Workbook (wb_encoding wb) (alter (record_cell r c label) sh (wb_sheets wb)))
  end.

(** [workbook.save(path)] *)
Definition workbook_save (wb : workbook) (path : string) : M unit := λ w,
  match xl_save_err wb path with
  | None => (Ok tt, World (<[path := biff8 wb]> (files w)) (trace w ++ [EvSave path]))
  | Some (e, None) => (Raised e, emit (EvSave path) w)
  | Some (e, Some partial) =>
      (Raised e, World (<[path := partial]> (files w)) (trace w ++ [EvSave path]))
  end.

(** Lines 42-50: the inner loop over [enumerate(row)], from [col_idx] on. *)
Fixpoint write_cells (sh row_idx col_idx : nat) (cells : list pyval) (wb : workbook)
    : exn + workbook :=
  match cells with
  | [] => inr wb
  | cell_value :: rest =>
      wb' ← sheet_write sh row_idx col_idx (cell_text cell_value) wb;
      write_cells sh row_idx (S col_idx) rest wb'
  end.

(** Lines 41-50: the outer loop over [enumerate(rows)], from [row_idx] on. *)
Fixpoint write_rows (sh row_idx : nat) (rows : list pyval) (wb : workbook)
    : exn + workbook :=
  match rows with
  | [] => inr wb
  | row :: rest =>
      cells ← py_iter row;
      wb' ← write_cells sh row_idx 0 cells wb;
      write_rows sh (S row_idx) rest wb'
  end.

Definition generate_xls (input_json_path output_xls_path : string) : M unit :=
  text ← read_file input_json_path;
  data ← of_sum (json_load text);
  rows ← of_sum (py_get data "rows" (PList []));
  if negb (truthy rows) then
    print_stderr "Error: No rows in input data";;
    sys_exit 1
  else
    let '(workbook, sheet) := add_sheet (Workbook "utf-8" []) "Sheet1" in
    rows_seq ← of_sum (py_iter rows);
    workbook ← of_sum (write_rows sheet 0 rows_seq workbook);
    workbook_save workbook output_xls_path;;
    n ← of_sum (py_len rows);
    print_stdout ("Generated XLS with " +:+ pretty n +:+ " rows").

(** The [__main__] block; [sys.argv] is [argv0 :: args]. *)
Definition main (argv0 : string) (args : list string) : M unit :=
  let sys_argv := argv0 :: args in
  if negb (length sys_argv =? 3)%nat then
    print_stderr ("Usage: " +:+ argv0 +:+ " <input_json> <output_xls>");;
    sys_exit 1
  else
    input_json ← of_sum (py_index sys_argv 1);
    output_xls ← of_sum (py_index sys_argv 2);
    try_except (generate_xls input_json output_xls)
      (λ e, print_stderr ("Error: " +:+ exn_str e);; sys_exit 1).

(** The process: its exit status and the world it leaves.  An exception
    nobody caught ends the interpreter with a traceback and status 1. *)
Definition run (argv0 : string) (args : list string) (w : world) : Z * world :=
  match main argv0 args w with
  | (Ok _, w') => (0%Z, w')
  | (Exited code, w') => (code, w')
  | (Raised e, w') =>
      (1%Z, emit (EvStderr ("Traceback (most recent call last): " +:+ exn_class e +:+ ": " +:+ exn_str e)) w')
  end.

End Script.

(** ** What the sheet must hold, in the words of the specification

    "For each row, in original order, for each cell, in original order:
    [...] write the string into the sheet at the corresponding (row index,
    column index) position, using zero-based indices". *)

Section Expected.
Context `{Platform}.

Definition row_cells (r : nat) (row : list pyval) : list (nat * nat * string) :=
  imap (λ c v, (r, c, cell_text v)) row.

Definition grid_cells (grid : list (list pyval)) : list (nat * nat * string) :=
  mjoin (imap row_cells grid).

(** The workbook of a document whose rows are [grid]. *)
Definition workbook_of (grid : list (list pyval)) : workbook :=
  Workbook "utf-8" [Sheet "Sheet1" (grid_cells grid)].

(** [rows] as [json.load] delivers a list of lists. *)
Definition rows_value (grid : list (list pyval)) : pyval :=
  PList (PList <$> grid).

(** xlwt takes every cell of the document. *)
Definition cells_accepted (grid : list (list pyval)) : Prop :=
  ∀ r c row v, grid !! r = Some row → row !! c = Some v →
    xl_write_err r c (cell_text v) = None.

(** The input file holds a JSON object whose ["rows"] is [rows]. *)
Definition input_has_rows (w : world) (path : string) (rows : pyval) : Prop :=
  ∃ text bindings,
    files w !! path = Some text ∧
    json_load text = inr (PDict bindings) ∧
    dict_lookup "rows" bindings = Some rows.

End Expected.

(** ** A platform to run the script on

    A parser that knows a few documents, [repr] of plain strings, and an
    xlwt with the limits of the .xls format: 65536 rows, 256 columns, and
    the 32767 characters of a cell the script's comment speaks of. *)

Module Demo.

Definition quote : string := String (Ascii.ascii_of_nat 34) "".

Definition quoted (s : string) : string := quote +:+ s +:+ quote.

Definition names : list (list pyval) :=
  [[PStr "Name"; PStr "Age"]; [PStr "Alice"; PStr "30"]; [PNone; PStr "25"]].

Definition ragged : list (list pyval) :=
  [[PStr "a"; PInt 12345; PBool true]; []; [PStr "b"]; [PNone; PStr "a"]].

Definition long_text : string := String.string_of_list_ascii (replicate (N.to_nat 32767) (Ascii.ascii_of_nat 120)).

Definition names_json : string :=
  "{" +:+ quoted "rows" +:+ ": [[" +:+ quoted "Name" +:+ "," +:+ quoted "Age" +:+ "],["
      +:+ quoted "Alice" +:+ "," +:+ quoted "30" +:+ "],[null," +:+ quoted "25" +:+ "]]}".

Definition ragged_json : string :=
  "{" +:+ quoted "rows" +:+ ": [[" +:+ quoted "a" +:+ ", 12345, true], [], ["
      +:+ quoted "b" +:+ "], [null, " +:+ quoted "a" +:+ "]]}".

Definition long_json : string :=
  "{" +:+ quoted "rows" +:+ ": [[" +:+ quoted long_text +:+ ", 12345, true, null]]}".

Definition documents : list (string * pyval) :=
  [ (names_json, PDict [("rows", rows_value names)]);
    (ragged_json, PDict [("rows", rows_value ragged)]);
    (long_json, PDict [("rows", rows_value [[PStr long_text; PInt 12345; PBool true; PNone]])]);
    ("{" +:+ quoted "rows" +:+ ": [[]]}", PDict [("rows", rows_value [[]])]);
    ("{" +:+ quoted "rows" +:+ ": []}", PDict [("rows", PList [])]);
    ("{" +:+ quoted "rows" +:+ ": null}", PDict [("rows", PNone)]);
    ("{" +:+ quoted "title" +:+ ": 1}", PDict [("title", PInt 1)]) ].

Definition parse (text : string) : exn + pyval :=
  match list_find (λ d, d.1 = text) documents with
  | Some (_, (_, v)) => inr v
  | None => inl (Exn "JSONDecodeError" "Expecting value: line 1 column 1 (char 0)")
  end.

Definition repr (v : pyval) : string :=
  match v with
  | PStr s => "'" +:+ s +:+ "'"
  | _ => "<" +:+ type_name v +:+ ">"
  end.

Definition write_err (r c : nat) (label : string) : option exn :=
  if decide (65536 ≤ N.of_nat r)%N then
    Some (Exn "ValueError" ("row index was " +:+ pretty r +:+ ", not allowed by .xls format"))
  else if decide (256 ≤ N.of_nat c)%N then
    Some (Exn "ValueError" ("column index (" +:+ pretty c +:+ ") not an int in range(256)"))
  else None.

(** A grid within the rows and columns of the format. *)
Definition fits (grid : list (list pyval)) : bool :=
  bool_decide ((N.of_nat (length grid) ≤ 65536)%N ∧
               Forall (λ row : list pyval, (N.of_nat (length row) ≤ 256)%N) grid).

Definition too_long (sh : sheet) : bool :=
  bool_decide (Exists (λ cell, (32767 < N.of_nat (length (chars cell.2)))%N) (sheet_cells sh)).

Definition save_err (wb : workbook) (path : string) : option (exn * option string) :=
  if existsb too_long (wb_sheets wb) then
    Some (Exn "Exception" "String longer than 32767 characters", None)
  else if decide (path = "") then
    Some (Exn "FileNotFoundError" "[Errno 2] No such file or directory: ''", None)
  else None.

Definition dump_cell (cell : nat * nat * string) : string :=
  pretty cell.1.1 +:+ "," +:+ pretty cell.1.2 +:+ "=" +:+ cell.2 +:+ ";".

Definition dump_sheet (sh : sheet) : string :=
  "[" +:+ sheet_name sh +:+ "]" +:+ foldr (λ cell acc, dump_cell cell +:+ acc) "" (sheet_cells sh).

Definition dump (wb : workbook) : string :=
  foldr (λ sh acc, dump_sheet sh +:+ acc) "" (wb_sheets wb).

#[export] Instance platform : Platform := {|
  py_repr := repr;
  json_load := parse;
  xl_write_err := write_err;
  xl_save_err := save_err;
  biff8 := dump
|}.

Definition disk : gmap string string :=
  {[ "names.json" := names_json;
     "ragged.json" := ragged_json;
     "blank.json" := "{" +:+ quoted "rows" +:+ ": [[]]}";
     "empty.json" := "{" +:+ quoted "rows" +:+ ": []}";
     "null.json" := "{" +:+ quoted "rows" +:+ ": null}";
     "norows.json" := "{" +:+ quoted "title" +:+ ": 1}";
     "broken.json" := "not json" ]}.

Definition boot : world := World disk [].

(** A disk with the one document whose first cell has 32767 characters. *)
Definition long_disk : gmap string string := {[ "long.json" := long_json ]}.

Definition long_boot : world := World long_disk [].

End Demo.

(** ** Rows that are not lists

    The loops take whatever iterates: [grid] is what [enumerate(rows)] and
    [enumerate(row)] visit when [rows] and every row in it can be
    iterated. *)

Definition iterates_to (rows : pyval) (grid : list (list pyval)) : Prop :=
  ∃ rows_seq : list pyval,
    py_iter rows = inr rows_seq ∧
    Forall2 (λ row cells, py_iter row = inr cells) rows_seq grid.

(** ** A second platform, with documents of other shapes

    The parser knows documents that are not an object of lists; xlwt has
    the limits of [Demo], and a save under [/full/] runs out of space and
    leaves an empty file behind. *)

Module Cases.

Definition wide_row : list pyval := replicate 257 (PStr "w").

Definition wide_json : string :=
  "{" +:+ Demo.quoted "rows" +:+ ": [[" +:+ Demo.quoted "w"
      +:+ foldr (λ _ acc, ", " +:+ Demo.quoted "w" +:+ acc) "" (replicate 256 ())
      +:+ "]]}".

(** A short row, then the row of 257 cells. *)
Definition ragged_wide_json : string :=
  "{" +:+ Demo.quoted "rows" +:+ ": [[" +:+ Demo.quoted "a" +:+ "], [" +:+ Demo.quoted "w"
      +:+ foldr (λ _ acc, ", " +:+ Demo.quoted "w" +:+ acc) "" (replicate 256 ())
      +:+ "]]}".

(** A text [json.load] takes although it is not JSON. *)
Definition nan_json : string := "{" +:+ Demo.quoted "rows" +:+ ": [[NaN]]}".

(** One character more than a cell holds. *)
Definition too_long_text : string := String "x"%char Demo.long_text.

Definition too_long_json : string :=
  "{" +:+ Demo.quoted "rows" +:+ ": [[" +:+ Demo.quoted too_long_text +:+ "]]}".

Definition kanji_json : string :=
  "{" +:+ Demo.quoted "rows" +:+ ": [" +:+ Demo.quoted "日本" +:+ ", " +:+ Demo.quoted "c" +:+ "]}".

Definition documents : list (string * pyval) :=
  [ ("[1, 2]", PList [PInt 1; PInt 2]);
    ("{" +:+ Demo.quoted "rows" +:+ ": 5}", PDict [("rows", PInt 5)]);
    ("{" +:+ Demo.quoted "rows" +:+ ": " +:+ Demo.quoted "ab" +:+ "}",
     PDict [("rows", PStr "ab")]);
    ("{" +:+ Demo.quoted "rows" +:+ ": [" +:+ Demo.quoted "ab" +:+ ", " +:+ Demo.quoted "c" +:+ "]}",
     PDict [("rows", PList [PStr "ab"; PStr "c"])]);
    ("{" +:+ Demo.quoted "rows" +:+ ": [[1], 5]}",
     PDict [("rows", PList [PList [PInt 1]; PInt 5])]);
    (wide_json, PDict [("rows", rows_value [wide_row])]);
    ("{" +:+ Demo.quoted "title" +:+ ": 1, " +:+ Demo.quoted "rows" +:+ ": [[1]]}",
     PDict [("title", PInt 1); ("rows", rows_value [[PInt 1]])]);
    ("{" +:+ Demo.quoted "rows" +:+ ": [[1]]}", PDict [("rows", rows_value [[PInt 1]])]);
    (ragged_wide_json, PDict [("rows", rows_value [[PStr "a"]; wide_row])]);
    (nan_json, PDict [("rows", rows_value [[PFloat S754_nan]])]);
    (kanji_json, PDict [("rows", PList [PStr "日本"; PStr "c"])]);
    (too_long_json, PDict [("rows", rows_value [[PStr too_long_text]])]) ].

Definition parse (text : string) : exn + pyval :=
  match list_find (λ d, d.1 = text) documents with
  | Some (_, (_, v)) => inr v
  | None => Demo.parse text
  end.

Definition save_err (wb : workbook) (path : string) : option (exn * option string) :=
  if String.prefix "/full/" path then
    Some (Exn "OSError" "[Errno 28] No space left on device", Some "")
  else Demo.save_err wb path.

(** [repr] of the floats that have no digits, else as in [Demo]. *)
Definition repr (v : pyval) : string :=
  match v with
  | PFloat S754_nan => "nan"
  | PFloat (S754_infinity false) => "inf"
  | PFloat (S754_infinity true) => "-inf"
  | _ => Demo.repr v
  end.

#[export] Instance platform : Platform := {|
  py_repr := repr;
  json_load := parse;
  xl_write_err := Demo.write_err;
  xl_save_err := save_err;
  biff8 := Demo.dump
|}.

Definition disk : gmap string string :=
  {[ "array.json" := "[1, 2]";
     "number.json" := "{" +:+ Demo.quoted "rows" +:+ ": 5}";
     "string.json" := "{" +:+ Demo.quoted "rows" +:+ ": " +:+ Demo.quoted "ab" +:+ "}";
     "strings.json" :=
       "{" +:+ Demo.quoted "rows" +:+ ": [" +:+ Demo.quoted "ab" +:+ ", " +:+ Demo.quoted "c" +:+ "]}";
     "badrow.json" := "{" +:+ Demo.quoted "rows" +:+ ": [[1], 5]}";
     "wide.json" := wide_json;
     "titled.json" :=
       "{" +:+ Demo.quoted "title" +:+ ": 1, " +:+ Demo.quoted "rows" +:+ ": [[1]]}";
     "plain.json" := "{" +:+ Demo.quoted "rows" +:+ ": [[1]]}";
     "names.json" := Demo.names_json;
     "ragged_wide.json" := ragged_wide_json;
     "nan.json" := nan_json;
     "kanji.json" := kanji_json ]}.

Definition boot : world := World disk [].

(** A disk with the one document whose cell has 32768 characters. *)
Definition long_disk : gmap string string := {[ "toolong.json" := too_long_json ]}.

Definition long_boot : world := World long_disk [].

End Cases.

(** ** JSON texts

    A recogniser for the grammar of RFC 8259: what "valid JSON" means for
    the text of a file.  Python's [json.load] takes more than this
    grammar: the literals [NaN], [Infinity] and [-Infinity]. *)

Module Json.

Definition is_char (c : ascii) (a : ascii) : bool := Ascii.eqb a c.

Definition is_ws (a : ascii) : bool :=
  is_char " "%char a || is_char "009"%char a || is_char "010"%char a || is_char "013"%char a.

Definition is_digit (a : ascii) : bool :=
  (48 <=? nat_of_ascii a) && (nat_of_ascii a <=? 57).

Definition is_hex (a : ascii) : bool :=
  is_digit a
  || ((65 <=? nat_of_ascii a) && (nat_of_ascii a <=? 70))
  || ((97 <=? nat_of_ascii a) && (nat_of_ascii a <=? 102)).

Definition is_escape (a : ascii) : bool :=
  is_char "034"%char a || is_char "\"%char a || is_char "/"%char a || is_char "b"%char a
  || is_char "f"%char a || is_char "n"%char a || is_char "r"%char a || is_char "t"%char a.

Fixpoint skip_ws (l : list ascii) : list ascii :=
  match l with
  | a :: rest => if is_ws a then skip_ws rest else l
  | [] => []
  end.

Fixpoint skip_digits (l : list ascii) : list ascii :=
  match l with
  | a :: rest => if is_digit a then skip_digits rest else l
  | [] => []
  end.

(** One digit at least, then the rest. *)
Definition digits (l : list ascii) : option (list ascii) :=
  match l with
  | a :: rest => if is_digit a then Some (skip_digits rest) else None
  | [] => None
  end.

(** number = [ minus ] int [ frac ] [ exp ] *)
Definition number (l : list ascii) : option (list ascii) :=
  let unsigned := match l with a :: rest => if is_char "-"%char a then rest else l | [] => l end in
  after_int ← match unsigned with
              | a :: rest => if is_char "0"%char a then Some rest else digits unsigned
              | [] => None
              end;
  after_frac ← match after_int with
               | a :: rest => if is_char "."%char a then digits rest else Some after_int
               | [] => Some after_int
               end;
  match after_frac with
  | a :: rest =>
      if is_char "e"%char a || is_char "E"%char a then
        match rest with
        | sign :: rest' =>
            if is_char "+"%char sign || is_char "-"%char sign then digits rest' else digits rest
        | [] => None
        end
      else Some after_frac
  | [] => Some after_frac
  end.

(** The characters of a string after its opening quotation mark, up to
    and with the closing one. *)
Fixpoint string_body (l : list ascii) : option (list ascii) :=
  match l with
  | [] => None
  | a :: rest =>
      if is_char "034"%char a then Some rest
      else if is_char "\"%char a then
        match rest with
        | e :: rest' =>
            if is_escape e then string_body rest'
            else if is_char "u"%char e then
              match rest' with
              | h1 :: h2 :: h3 :: h4 :: rest'' =>
                  if is_hex h1 && is_hex h2 && is_hex h3 && is_hex h4
                  then string_body rest'' else None
              | _ => None
              end
            else None
        | [] => None
        end
      else if nat_of_ascii a <? 32 then None
      else string_body rest
  end.

Definition literal (word : string) (l : list ascii) : option (list ascii) :=
  let w := String.list_ascii_of_string word in
  if bool_decide (take (length w) l = w) then Some (drop (length w) l) else None.

(** value, with [fuel] bounding the nesting and the number of items. *)
Fixpoint value (fuel : nat) (l : list ascii) : option (list ascii) :=
  match fuel with
  | 0 => None
  | S fuel' =>
      match skip_ws l with
      | [] => None
      | a :: rest =>
          if is_char "["%char a then
            match skip_ws rest with
            | [] => None
            | b :: rest' =>
                if is_char "]"%char b then Some rest'
                else
                  (fix items (k : nat) (l : list ascii) {struct k} : option (list ascii) :=
                     match k with
                     | 0 => None
                     | S k' =>
                         after ← value fuel' l;
                         match skip_ws after with
                         | c :: more =>
                             if is_char ","%char c then items k' more
                             else if is_char "]"%char c then Some more
                             else None
                         | [] => None
                         end
                     end) fuel' (b :: rest')
            end
          else if is_char "{"%char a then
            match skip_ws rest with
            | [] => None
            | b :: rest' =>
                if is_char "}"%char b then Some rest'
                else
                  (fix members (k : nat) (l : list ascii) {struct k} : option (list ascii) :=
                     match k with
                     | 0 => None
                     | S k' =>
                         match skip_ws l with
                         | q :: name =>
                             if is_char "034"%char q then
                               after_name ← string_body name;
                               match skip_ws after_name with
                               | colon :: v =>
                                   if is_char ":"%char colon then
                                     after ← value fuel' v;
                                     match skip_ws after with
                                     | c :: more =>
                                         if is_char ","%char c then members k' more
                                         else if is_char "}"%char c then Some more
                                         else None
                                     | [] => None
                                     end
                                   else None
                               | [] => None
                               end
                             else None
                         | [] => None
                         end
                     end) fuel' (b :: rest')
            end
          else if is_char "034"%char a then string_body rest
          else if is_char "t"%char a then literal "true" (a :: rest)
          else if is_char "f"%char a then literal "false" (a :: rest)
          else if is_char "n"%char a then literal "null" (a :: rest)
          else number (a :: rest)
      end
  end.

(** JSON-text = ws value ws *)
Definition valid (text : string) : bool :=
  let l := String.list_ascii_of_string text in
  match value (S (length l)) l with
  | Some rest => bool_decide (skip_ws rest = [])
  | None => false
  end.

End Json.

(** ** Reading a decimal numeral

    The integer a text of decimal digits, with a minus sign before them
    or not, stands for. *)





(** ** The two loops *)

Section Loops.
Context `{Platform}.

Lemma append_cells_nil sh wb : append_cells sh [] wb = wb.
Proof.
  destruct wb as [enc sheets]. unfold append_cells; simpl. f_equal.
  apply list_alter_id. intros [name cells]; simpl. by rewrite app_nil_r.
Qed.

Lemma append_cells_app sh new1 new2 wb :
  append_cells sh new2 (append_cells sh new1 wb) = append_cells sh (new1 ++ new2) wb.
Proof.
  destruct wb as [enc sheets]. unfold append_cells; simpl. f_equal.
  rewrite list_alter_alter_eq. apply list_alter_ext; [|done].
  intros [name cells] _; simpl. by rewrite app_assoc.
Qed.

Lemma sheet_write_accepted sh r c label wb :
  xl_write_err r c label = None →
  sheet_write sh r c label wb = inr (append_cells sh [(r, c, label)] wb).
Proof. intros Hok. unfold sheet_write. by rewrite Hok. Qed.

Lemma sheet_write_refused sh r c label wb e :
  xl_write_err r c label = Some e → sheet_write sh r c label wb = inl e.
Proof. intros Hno. unfold sheet_write. by rewrite Hno. Qed.

Lemma write_cells_accepted sh r cells : ∀ c0 wb,
  (∀ i v, cells !! i = Some v → xl_write_err r (c0 + i) (cell_text v) = None) →
  write_cells sh r c0 cells wb
  = inr (append_cells sh (imap (λ i v, (r, c0 + i, cell_text v)) cells) wb).
Proof.
  induction cells as [|v cells IH]; intros c0 wb Hok; simpl.
  - by rewrite append_cells_nil.
  - rewrite sheet_write_accepted; last first.
    { specialize (Hok 0%nat v eq_refl). by rewrite Nat.add_0_r in Hok. }
    simpl. rewrite IH; last first.
    { intros i x Hi. specialize (Hok (S i) x Hi). by rewrite Nat.add_succ_r in Hok. }
    rewrite append_cells_app. do 2 f_equal. simpl. rewrite Nat.add_0_r. f_equal.
    apply imap_ext. intros i x _; simpl. by rewrite Nat.add_succ_r.
Qed.

Lemma write_rows_accepted sh grid : ∀ r0 wb,
  (∀ r c row v, grid !! r = Some row → row !! c = Some v →
     xl_write_err (r0 + r) c (cell_text v) = None) →
  write_rows sh r0 (PList <$> grid) wb
  = inr (append_cells sh (mjoin (imap (λ r, row_cells (r0 + r)) grid)) wb).
Proof.
  induction grid as [|row grid IH]; intros r0 wb Hok; simpl.
  - by rewrite append_cells_nil.
  - rewrite (write_cells_accepted sh r0 row 0 wb); last first.
    { intros i v Hi. specialize (Hok 0%nat i row v eq_refl Hi). by rewrite Nat.add_0_r in Hok. }
    simpl. rewrite IH; last first.
    { intros r c row' v Hr Hc. specialize (Hok (S r) c row' v Hr Hc).
      by rewrite Nat.add_succ_r in Hok. }
    rewrite append_cells_app. do 2 f_equal. rewrite Nat.add_0_r. f_equal.
    f_equal. apply imap_ext. intros i x _; simpl. by rewrite Nat.add_succ_r.
Qed.

End Loops.

(** ** Reading the expected sheet back *)

Section Sheet.
Context `{Platform}.

Lemma find_cell_app r c cells1 cells2 :
  find_cell r c (cells1 ++ cells2)
  = match find_cell r c cells2 with
    | Some t => Some t
    | None => find_cell r c cells1
    end.
Proof.
  induction cells1 as [|[[r' c'] t] cells1 IH]; simpl.
  - by destruct (find_cell r c cells2).
  - rewrite IH. destruct (find_cell r c cells2); [done|].
    by destruct (find_cell r c cells1).
Qed.

(** One row, its columns counted from [c0]. *)
Lemma find_cell_row r c r' row : ∀ c0,
  find_cell r c (imap (λ i v, (r', c0 + i, cell_text v)) row)
  = if decide (r' = r ∧ (c0 ≤ c)%nat) then cell_text <$> row !! (c - c0) else None.
Proof.
  induction row as [|v row IH]; intros c0.
  - simpl. by case_decide.
  - rewrite imap_cons. cbn [find_cell].
    rewrite (imap_ext _ (λ i v, (r', S c0 + i, cell_text v))); last first.
    { intros i x _; simpl. by rewrite Nat.add_succ_r. }
    rewrite IH. rewrite Nat.add_0_r.
    destruct (decide (r' = r ∧ (S c0 ≤ c)%nat)) as [[-> Hle]|Hno].
    + replace (c - c0) with (S (c - S c0)) by lia.
      rewrite (decide_True (P := r = r ∧ (c0 ≤ c)%nat)) by lia.
      rewrite (decide_False (P := r = r ∧ c0 = c)) by lia.
      simpl. by destruct (row !! (c - S c0)).
    + destruct (decide (r' = r ∧ c0 = c)) as [[-> ->]|Hne].
      * rewrite decide_True by lia. by rewrite Nat.sub_diag.
      * by rewrite decide_False by lia.
Qed.

Lemma find_cell_row_cells r c r' row :
  find_cell r c (row_cells r' row)
  = if decide (r' = r) then cell_text <$> row !! c else None.
Proof.
  unfold row_cells.
  rewrite (imap_ext _ (λ i v, (r', 0 + i, cell_text v))) by done.
  rewrite find_cell_row. rewrite Nat.sub_0_r.
  destruct (decide (r' = r)); [by rewrite decide_True by lia|].
  by rewrite decide_False by tauto.
Qed.

(** The rows of a grid, counted from [r0]. *)
Lemma find_cell_rows r c grid : ∀ r0,
  find_cell r c (mjoin (imap (λ i, row_cells (r0 + i)) grid))
  = if decide (r0 ≤ r)%nat then cell_text <$> (grid !! (r - r0) ≫= (.!! c)) else None.
Proof.
  induction grid as [|row grid IH]; intros r0.
  - simpl. by case_decide.
  - rewrite imap_cons. cbn [mjoin list_join]. rewrite find_cell_app.
    rewrite (imap_ext _ (λ i, row_cells (S r0 + i))); last first.
    { intros i x _; simpl. by rewrite Nat.add_succ_r. }
    rewrite IH, find_cell_row_cells, Nat.add_0_r.
    destruct (decide (S r0 ≤ r)%nat) as [Hle|Hno].
    + rewrite (decide_True (P := (r0 ≤ r)%nat)) by lia.
      rewrite (decide_False (P := r0 = r)) by lia.
      replace (r - r0) with (S (r - S r0)) by lia. simpl.
      by destruct (grid !! (r - S r0) ≫= (.!! c)).
    + destruct (decide (r0 = r)) as [->|Hne].
      * rewrite decide_True by lia. by rewrite Nat.sub_diag.
      * by rewrite decide_False by lia.
Qed.

(** The text at (r, c) of the expected sheet is the text of [rows[r][c]],
    and there is none where the document has no cell. *)
Lemma find_cell_grid grid r c :
  find_cell r c (grid_cells grid) = cell_text <$> (grid !! r ≫= (.!! c)).
Proof.
  unfold grid_cells.
  rewrite (imap_ext _ (λ i, row_cells (0 + i))) by done.
  rewrite find_cell_rows, Nat.sub_0_r. by rewrite decide_True by lia.
Qed.

(** The texts of the expected sheet, in the order written, are the
    texts of all cells of the document, row after row. *)
Lemma row_cells_texts r row :
  (λ cell : nat * nat * string, cell.2) <$> row_cells r row = cell_text <$> row.
Proof.
  unfold row_cells. rewrite fmap_imap.
  rewrite <- (imap_const cell_text). by apply imap_ext.
Qed.

Lemma rows_texts grid : ∀ r0,
  (λ cell : nat * nat * string, cell.2) <$> mjoin (imap (λ i, row_cells (r0 + i)) grid)
  = cell_text <$> mjoin grid.
Proof.
  induction grid as [|row grid IH]; intros r0; [done|].
  rewrite imap_cons. cbn [mjoin list_join]. rewrite !fmap_app, row_cells_texts.
  f_equal. etrans; [|apply (IH (S r0))]. do 2 f_equal.
  apply imap_ext. intros i x _; simpl. by rewrite Nat.add_succ_r.
Qed.

Lemma grid_cells_texts grid :
  (λ cell : nat * nat * string, cell.2) <$> grid_cells grid = cell_text <$> mjoin grid.
Proof. apply (rows_texts grid 0). Qed.

Lemma grid_cells_length grid :
  length (grid_cells grid) = sum_list (length <$> grid).
Proof.
  rewrite <- (length_fmap (λ cell : nat * nat * string, cell.2)).
  rewrite grid_cells_texts, length_fmap. apply length_join.
Qed.

Lemma grid_cells_blank grid : Forall (.= []) grid → grid_cells grid = [].
Proof.
  intros Hblank. apply length_zero_iff_nil. rewrite grid_cells_length.
  induction Hblank as [|row grid -> _ IH]; [done|]. simpl. exact IH.
Qed.

(** No position is written twice: the indices come from [enumerate]. *)
Lemma row_positions r row : ∀ c0,
  (λ cell : nat * nat * string, cell.1) <$> imap (λ i v, (r, c0 + i, cell_text v)) row
  = (λ c, (r, c)) <$> seq c0 (length row).
Proof.
  induction row as [|v row IH]; intros c0; [done|].
  rewrite imap_cons. simpl. rewrite Nat.add_0_r. f_equal.
  etrans; [|apply (IH (S c0))]. f_equal. apply imap_ext.
  intros i x _; simpl. by rewrite Nat.add_succ_r.
Qed.

Lemma row_cells_positions r row :
  (λ cell : nat * nat * string, cell.1) <$> row_cells r row
  = (λ c, (r, c)) <$> seq 0 (length row).
Proof. apply (row_positions r row 0). Qed.

Lemma rows_positions_from grid : ∀ r0 p,
  p ∈ (λ cell : nat * nat * string, cell.1) <$> mjoin (imap (λ i, row_cells (r0 + i)) grid) →
  r0 ≤ p.1.
Proof.
  induction grid as [|row grid IH]; intros r0 p Hp.
  - by apply elem_of_nil in Hp.
  - rewrite imap_cons in Hp. cbn [mjoin list_join] in Hp.
    rewrite fmap_app, elem_of_app in Hp. destruct Hp as [Hp|Hp].
    + rewrite Nat.add_0_r, row_cells_positions in Hp.
      apply list_elem_of_fmap in Hp as (c & -> & _). simpl. lia.
    + rewrite (imap_ext _ (λ i, row_cells (S r0 + i))) in Hp; last first.
      { intros i x _; simpl. by rewrite Nat.add_succ_r. }
      apply IH in Hp. lia.
Qed.

Lemma rows_positions_NoDup grid : ∀ r0,
  NoDup ((λ cell : nat * nat * string, cell.1) <$> mjoin (imap (λ i, row_cells (r0 + i)) grid)).
Proof.
  induction grid as [|row grid IH]; intros r0; [by apply NoDup_nil|].
  rewrite imap_cons. cbn [mjoin list_join].
  rewrite (imap_ext _ (λ i, row_cells (S r0 + i))); last first.
  { intros i x _; simpl. by rewrite Nat.add_succ_r. }
  rewrite fmap_app, Nat.add_0_r, row_cells_positions. apply NoDup_app. split; [|split].
  - apply NoDup_fmap_2; [|apply NoDup_seq]. by intros c1 c2 [= ->].
  - intros p Hrow Hrest. apply list_elem_of_fmap in Hrow as (c & -> & _).
    apply rows_positions_from in Hrest. simpl in Hrest. lia.
  - apply IH.
Qed.

Lemma grid_cells_positions_NoDup grid :
  NoDup ((λ cell : nat * nat * string, cell.1) <$> grid_cells grid).
Proof. apply (rows_positions_NoDup grid 0). Qed.

End Sheet.

(** ** The runs of [generate_xls] *)

Section Runs.
Context `{Platform}.

Lemma fresh_workbook grid :
  append_cells 0 (grid_cells grid) (add_sheet (Workbook "utf-8" []) "Sheet1").1
  = workbook_of grid.
Proof. reflexivity. Qed.

(** The input cannot be opened. *)
Lemma generate_xls_unreadable inp out w :
  files w !! inp = None →
  generate_xls inp out w
  = (Raised (Exn "FileNotFoundError"
                 ("[Errno 2] No such file or directory: " +:+ py_repr (PStr inp))),
     World (files w) (trace w ++ [EvOpen inp])).
Proof.
  intros Hfile. unfold generate_xls, mbind, M_bind, read_file. by rewrite Hfile.
Qed.

(** The input is not JSON. *)
Lemma generate_xls_unparsable inp out w text e :
  files w !! inp = Some text →
  json_load text = inl e →
  generate_xls inp out w = (Raised e, World (files w) (trace w ++ [EvOpen inp])).
Proof.
  intros Hfile Hparse. unfold generate_xls, mbind, M_bind, read_file.
  by rewrite Hfile, Hparse.
Qed.

(** The document is not an object. *)
Lemma generate_xls_not_a_dict inp out w text data :
  files w !! inp = Some text →
  json_load text = inr data →
  (∀ bindings, data ≠ PDict bindings) →
  generate_xls inp out w
  = (Raised (AttributeError data "get"), World (files w) (trace w ++ [EvOpen inp])).
Proof.
  intros Hfile Hparse Hdata. unfold generate_xls, mbind, M_bind, read_file.
  rewrite Hfile, Hparse. simpl.
  destruct data; try done. by destruct (Hdata bindings).
Qed.

(** [rows] is falsy: lines 32-34. *)
Lemma generate_xls_no_rows inp out w text data rows :
  files w !! inp = Some text →
  json_load text = inr data →
  py_get data "rows" (PList []) = inr rows →
  truthy rows = false →
  generate_xls inp out w
  = (Exited 1,
     World (files w) (trace w ++ [EvOpen inp; EvStderr "Error: No rows in input data"])).
Proof.
  intros Hfile Hparse Hget Hfalsy. unfold generate_xls, mbind, M_bind, read_file.
  rewrite Hfile, Hparse. simpl. rewrite Hget. simpl. rewrite Hfalsy. simpl.
  unfold emit; simpl. by rewrite <- app_assoc.
Qed.

Lemma input_has_rows_get w inp rows :
  input_has_rows w inp rows →
  ∃ text data,
    files w !! inp = Some text ∧ json_load text = inr data ∧
    py_get data "rows" (PList []) = inr rows.
Proof.
  intros (text & bindings & Hfile & Hparse & Hrows).
  exists text, (PDict bindings). repeat split; [done..|].
  simpl. by rewrite Hrows.
Qed.

Lemma rows_value_truthy grid : grid ≠ [] → truthy (rows_value grid) = true.
Proof. by destruct grid. Qed.

(** Every cell is taken and the save goes through: lines 36-55. *)
Lemma generate_xls_converts inp out w grid :
  input_has_rows w inp (rows_value grid) →
  grid ≠ [] →
  cells_accepted grid →
  xl_save_err (workbook_of grid) out = None →
  generate_xls inp out w
  = (Ok tt,
     World (<[out := biff8 (workbook_of grid)]> (files w))
           (trace w ++ [EvOpen inp; EvSave out;
                        EvStdout ("Generated XLS with " +:+ pretty (length grid) +:+ " rows")])).
Proof.
  intros Hin Hne Hcells Hsave.
  destruct (input_has_rows_get _ _ _ Hin) as (text & data & Hfile & Hparse & Hget).
  unfold generate_xls, mbind, M_bind, read_file.
  rewrite Hfile, Hparse. simpl. rewrite Hget. simpl.
  change (match PList <$> grid with [] => false | _ => true end)
    with (truthy (rows_value grid)).
  rewrite (rows_value_truthy grid Hne). simpl.
  rewrite (write_rows_accepted 0 grid 0); last first.
  { intros r c row v Hr Hc. by apply (Hcells r c row v). }
  simpl. change (append_cells _ _ _) with (workbook_of grid).
  unfold workbook_save. rewrite Hsave. simpl.
  rewrite length_fmap. unfold print_stdout, emit; simpl. by rewrite <- !app_assoc.
Qed.

(** Every cell is taken and the save fails. *)
Lemma generate_xls_save_fails inp out w grid e left :
  input_has_rows w inp (rows_value grid) →
  grid ≠ [] →
  cells_accepted grid →
  xl_save_err (workbook_of grid) out = Some (e, left) →
  generate_xls inp out w
  = (Raised e,
     World (from_option (λ partial, <[out := partial]> (files w)) (files w) left)
           (trace w ++ [EvOpen inp; EvSave out])).
Proof.
  intros Hin Hne Hcells Hsave.
  destruct (input_has_rows_get _ _ _ Hin) as (text & data & Hfile & Hparse & Hget).
  unfold generate_xls, mbind, M_bind, read_file.
  rewrite Hfile, Hparse. simpl. rewrite Hget. simpl.
  change (match PList <$> grid with [] => false | _ => true end)
    with (truthy (rows_value grid)).
  rewrite (rows_value_truthy grid Hne). simpl.
  rewrite (write_rows_accepted 0 grid 0); last first.
  { intros r c row v Hr Hc. by apply (Hcells r c row v). }
  simpl. change (append_cells _ _ _) with (workbook_of grid).
  unfold workbook_save. rewrite Hsave.
  destruct left; unfold emit; simpl; by rewrite <- !app_assoc.
Qed.

(** The [__main__] block with two arguments: the exit status follows
    from how [generate_xls] ended. *)
Lemma run_two_args argv0 inp out w :
  run argv0 [inp; out] w
  = match generate_xls inp out w with
    | (Ok _, w') => (0%Z, w')
    | (Exited code, w') => (code, w')
    | (Raised e, w') =>
        (1%Z, World (files w') (trace w' ++ [EvStderr ("Error: " +:+ exn_str e)]))
    end.
Proof.
  unfold run, main, try_except, mbind, M_bind. simpl.
  destruct (generate_xls inp out w) as [[[]|e|code] w']; reflexivity.
Qed.

End Runs.

(** ** How [generate_xls] can end *)

Section Endings.
Context `{Platform}.

(** The loops only compute: whatever they raise, they raise before the
    save, and the world is as the read left it.  An exception leaves
    [generate_xls] after the one [open], or after the one [save]; a
    [sys.exit] leaves it with status 1 after the message of line 33;
    a normal end follows one [open], one [save] and one line of output. *)
Lemma generate_xls_endings inp out w r w' :
  generate_xls inp out w = (r, w') →
  match r with
  | Raised e =>
      (files w' = files w ∧ trace w' = trace w ++ [EvOpen inp]) ∨
      (∃ wb left, xl_save_err wb out = Some (e, left) ∧
                  trace w' = trace w ++ [EvOpen inp; EvSave out])
  | Exited code =>
      code = 1%Z ∧ files w' = files w ∧
      trace w' = trace w ++ [EvOpen inp; EvStderr "Error: No rows in input data"]
  | Ok _ =>
      ∃ (wb : workbook) (line : string),
        xl_save_err wb out = None ∧
        files w' = <[out := biff8 wb]> (files w) ∧
        trace w' = trace w ++ [EvOpen inp; EvSave out; EvStdout line]
  end.
Proof.
  unfold generate_xls, mbind, M_bind, read_file.
  destruct (files w !! inp) as [text|]; last first.
  { intros [= <- <-]. left. done. }
  destruct (json_load text) as [e|data]; simpl.
  { intros [= <- <-]. left. done. }
  destruct (py_get data "rows" (PList [])) as [e|rows]; simpl.
  { intros [= <- <-]. left. done. }
  destruct (truthy rows); simpl; last first.
  { intros [= <- <-]. simpl. by rewrite <- app_assoc. }
  destruct (py_iter rows) as [e|rows_seq] eqn:Hiter; simpl.
  { intros [= <- <-]. left. done. }
  destruct (write_rows 0 0 rows_seq _) as [e|wb]; simpl.
  { intros [= <- <-]. left. done. }
  unfold workbook_save; simpl.
  destruct (xl_save_err wb out) as [[e [partial|]]|] eqn:Hsave; simpl.
  - intros [= <- <-]. right. exists wb, (Some partial). simpl.
    by rewrite <- app_assoc.
  - intros [= <- <-]. right. exists wb, None. simpl. by rewrite <- app_assoc.
  - destruct (py_len rows) as [e|n] eqn:Hlen; simpl.
    + destruct rows; simpl in *; discriminate.
    + unfold print_stdout. intros [= <- <-]. eexists wb, _. simpl.
      by rewrite <- !app_assoc.
Qed.

Lemma stderr_of_app t1 t2 : stderr_of (t1 ++ t2) = stderr_of t1 ++ stderr_of t2.
Proof. unfold stderr_of. apply omap_app. Qed.

Lemma stdout_of_app t1 t2 : stdout_of (t1 ++ t2) = stdout_of t1 ++ stdout_of t2.
Proof. unfold stdout_of. apply omap_app. Qed.

(** Python's falsy values among what JSON can hold. *)
Lemma falsy_json_values :
  Forall (λ v, truthy v = false)
         [PNone; PBool false; PInt 0; PFloat (S754_zero false); PFloat (S754_zero true);
          PStr ""; PList []; PDict []].
Proof. repeat constructor. Qed.

Lemma run_usage argv0 args w :
  length args ≠ 2 →
  run argv0 args w
  = (1%Z, World (files w)
                (trace w ++ [EvStderr ("Usage: " +:+ argv0 +:+ " <input_json> <output_xls>")])).
Proof.
  intros Hlen. unfold run, main.
  replace (length (argv0 :: args) =? 3) with false; [reflexivity|].
  symmetry. apply Nat.eqb_neq. simpl. lia.
Qed.

End Endings.

(** ** A cell xlwt refuses *)

Section Refusals.
Context `{Platform}.

Lemma write_cells_refused sh r cells : ∀ c0 wb i v e,
  cells !! i = Some v →
  xl_write_err r (c0 + i) (cell_text v) = Some e →
  (∀ j x, j < i → cells !! j = Some x → xl_write_err r (c0 + j) (cell_text x) = None) →
  write_cells sh r c0 cells wb = inl e.
Proof.
  induction cells as [|x cells IH]; intros c0 wb i v e Hi Hno Hbefore; [done|].
  destruct i as [|i]; simpl in Hi.
  - injection Hi as ->. simpl. rewrite Nat.add_0_r in Hno.
    by rewrite (sheet_write_refused _ _ _ _ _ e).
  - simpl. rewrite sheet_write_accepted; last first.
    { specialize (Hbefore 0 x). rewrite Nat.add_0_r in Hbefore.
      apply Hbefore; [lia|done]. }
    simpl. apply (IH (S c0) _ i v e Hi).
    + by rewrite Nat.add_succ_l, <- Nat.add_succ_r.
    + intros j y Hj Hy. rewrite Nat.add_succ_l, <- Nat.add_succ_r.
      apply Hbefore; [lia|done].
Qed.

(** The first cell, in row-major order, that xlwt refuses ends the loops
    with xlwt's exception. *)
Lemma write_rows_refused sh grid : ∀ r0 wb r c row v e,
  grid !! r = Some row →
  row !! c = Some v →
  xl_write_err (r0 + r) c (cell_text v) = Some e →
  (∀ r' c' row' v', grid !! r' = Some row' → row' !! c' = Some v' →
     r' < r ∨ (r' = r ∧ c' < c) →
     xl_write_err (r0 + r') c' (cell_text v') = None) →
  write_rows sh r0 (PList <$> grid) wb = inl e.
Proof.
  induction grid as [|row0 grid IH]; intros r0 wb r c row v e Hr Hc Hno Hbefore; [done|].
  destruct r as [|r]; simpl in Hr.
  - injection Hr as ->. simpl. rewrite Nat.add_0_r in Hno.
    rewrite (write_cells_refused sh r0 row 0 wb c v e); [done..|].
    intros j x Hj Hx. specialize (Hbefore 0 j row x eq_refl Hx).
    rewrite Nat.add_0_r in Hbefore. apply Hbefore. right. lia.
  - simpl. rewrite (write_cells_accepted sh r0 row0 0 wb); last first.
    { intros j x Hx. specialize (Hbefore 0 j row0 x eq_refl Hx).
      rewrite Nat.add_0_r in Hbefore. apply Hbefore. left. lia. }
    simpl. apply (IH (S r0) _ r c row v e Hr Hc).
    + by rewrite Nat.add_succ_l, <- Nat.add_succ_r.
    + intros r' c' row' v' Hr' Hc' Hlt. rewrite Nat.add_succ_l, <- Nat.add_succ_r.
      apply (Hbefore (S r') c' row' v' Hr' Hc'). lia.
Qed.

Lemma generate_xls_cell_refused inp out w grid r c row v e :
  input_has_rows w inp (rows_value grid) →
  grid !! r = Some row →
  row !! c = Some v →
  xl_write_err r c (cell_text v) = Some e →
  (∀ r' c' row' v', grid !! r' = Some row' → row' !! c' = Some v' →
     r' < r ∨ (r' = r ∧ c' < c) →
     xl_write_err r' c' (cell_text v') = None) →
  generate_xls inp out w = (Raised e, World (files w) (trace w ++ [EvOpen inp])).
Proof.
  intros Hin Hr Hc Hno Hbefore.
  destruct (input_has_rows_get _ _ _ Hin) as (text & data & Hfile & Hparse & Hget).
  unfold generate_xls, mbind, M_bind, read_file.
  rewrite Hfile, Hparse. simpl. rewrite Hget. simpl.
  change (match PList <$> grid with [] => false | _ => true end)
    with (truthy (rows_value grid)).
  rewrite (rows_value_truthy grid); [|by intros ->]. simpl.
  by rewrite (write_rows_refused 0 grid 0 _ r c row v e).
Qed.

End Refusals.

(** ** The demonstration platform takes what fits the format *)

Lemma demo_fits_accepted grid :
  Demo.fits grid = true → @cells_accepted Demo.platform grid.
Proof.
  unfold Demo.fits. intros Hfits. apply bool_decide_eq_true in Hfits as [Hrows Hcols].
  intros r c row v Hr Hc. simpl. unfold Demo.write_err.
  apply lookup_lt_Some in Hr as Hrlt. apply lookup_lt_Some in Hc as Hclt.
  assert (Hrow : (N.of_nat (length row) ≤ 256)%N).
  { rewrite Forall_forall in Hcols. apply Hcols. by apply list_elem_of_lookup_2 with r. }
  rewrite decide_False by lia. by rewrite decide_False by lia.
Qed.

Lemma demo_input_has_rows w path text rows :
  files w !! path = Some text →
  Demo.parse text = inr (PDict [("rows", rows)]) →
  @input_has_rows Demo.platform w path rows.
Proof. intros Hfile Hparse. by exists text, [("rows", rows)]. Qed.

(** ** The properties of the command *)

Section Properties.
Context `{Platform}.

(** C1. For a document whose [rows] is a non-empty list of lists, every
    cell xlwt takes and the save going through, the run ends with status
    0 and the saved sheet holds, at zero-based (r, c), the string form
    of [rows[r][c]], the empty string for a null; the sheet received
    its cells row after row, each row left to right, none left out. *)
Theorem cells_written_in_place argv0 inp out w grid :
  input_has_rows w inp (rows_value grid) →
  grid ≠ [] →
  cells_accepted grid →
  xl_save_err (workbook_of grid) out = None →
  ∃ sh : sheet,
    run argv0 [inp; out] w
    = (0%Z,
       World (<[out := biff8 (Workbook "utf-8" [sh])]> (files w))
             (trace w ++ [EvOpen inp; EvSave out;
                          EvStdout ("Generated XLS with " +:+ pretty (length grid) +:+ " rows")])) ∧
    sheet_cells sh
    = mjoin (imap (λ r row, imap (λ c v, (r, c, cell_text v)) row) grid) ∧
    ∀ r c row v, grid !! r = Some row → row !! c = Some v →
      cell_at sh r c = Some (match v with PNone => "" | _ => py_str v end).
Proof.
  intros Hin Hne Hcells Hsave. exists (Sheet "Sheet1" (grid_cells grid)).
  split; [|split].
  - rewrite run_two_args. by rewrite (generate_xls_converts inp out w grid).
  - reflexivity.
  - intros r c row v Hr Hc. unfold cell_at. simpl.
    rewrite find_cell_grid, Hr. simpl. by rewrite Hc.
Qed.

(** C2. For a document, a JSON object, whose [rows] is absent or the
    empty list, the run ends with status 1, the one line it writes is
    the error on standard error, and the files are as they were: nothing
    is saved.  The absent key reads as the empty list. *)
Theorem empty_rows_rejected argv0 inp out w text bindings :
  files w !! inp = Some text →
  json_load text = inr (PDict bindings) →
  dict_lookup "rows" bindings = None ∨ dict_lookup "rows" bindings = Some (PList []) →
  py_get (PDict bindings) "rows" (PList []) = inr (PList []) ∧
  run argv0 [inp; out] w
  = (1%Z, World (files w)
                (trace w ++ [EvOpen inp; EvStderr "Error: No rows in input data"])).
Proof.
  intros Hfile Hparse Hrows.
  assert (Hget : py_get (PDict bindings) "rows" (PList []) = inr (PList [])).
  { simpl. by destruct Hrows as [-> | ->]. }
  split; [exact Hget|].
  rewrite run_two_args.
  by rewrite (generate_xls_no_rows inp out w text (PDict bindings) (PList [])).
Qed.

(** C3. On a successful run (a document with a non-empty list of rows,
    every cell taken, the save going through) the exit status is 0 and
    the one line on standard output reports [len(rows)]; nothing goes
    to standard error. *)
Theorem row_count_reported argv0 inp out w grid :
  input_has_rows w inp (rows_value grid) →
  grid ≠ [] →
  cells_accepted grid →
  xl_save_err (workbook_of grid) out = None →
  py_len (rows_value grid) = inr (length grid) ∧
  (run argv0 [inp; out] w).1 = 0%Z ∧
  stdout_of (trace (run argv0 [inp; out] w).2)
  = stdout_of (trace w) ++ ["Generated XLS with " +:+ pretty (length grid) +:+ " rows"] ∧
  stderr_of (trace (run argv0 [inp; out] w).2) = stderr_of (trace w).
Proof.
  intros Hin Hne Hcells Hsave.
  rewrite run_two_args, (generate_xls_converts inp out w grid) by done.
  simpl. rewrite stdout_of_app, stderr_of_app. simpl.
  rewrite length_fmap, app_nil_r. done.
Qed.

(** C4. When [json.load] rejects the text of the input file, the run ends
    with status 1 and the parser's message on standard error; the files
    are as they were and no save was attempted.  ([json.load] rejects
    less than all that is not JSON: it takes NaN, Infinity and
    -Infinity.) *)
Theorem malformed_json_rejected argv0 inp out w text e :
  files w !! inp = Some text →
  json_load text = inl e →
  run argv0 [inp; out] w
  = (1%Z, World (files w)
                (trace w ++ [EvOpen inp; EvStderr ("Error: " +:+ exn_str e)])).
Proof.
  intros Hfile Hparse.
  rewrite run_two_args, (generate_xls_unparsable inp out w text e) by done.
  simpl. by rewrite <- app_assoc.
Qed.


(** C6. Rows of any lengths, equal or not, whose cells xlwt takes and
    whose save goes through, are converted as they are: the run succeeds,
    the sheet holds a text at (r, c) exactly where the document has a
    cell, nothing beyond the end of a row or below the last row, no
    position twice, and as many cells as the document has. *)
Theorem ragged_rows_written_as_given argv0 inp out w grid :
  input_has_rows w inp (rows_value grid) →
  grid ≠ [] →
  cells_accepted grid →
  xl_save_err (workbook_of grid) out = None →
  ∃ sh : sheet,
    run argv0 [inp; out] w
    = (0%Z,
       World (<[out := biff8 (Workbook "utf-8" [sh])]> (files w))
             (trace w ++ [EvOpen inp; EvSave out;
                          EvStdout ("Generated XLS with " +:+ pretty (length grid) +:+ " rows")])) ∧
    (∀ r c, cell_at sh r c = cell_text <$> (grid !! r ≫= (.!! c))) ∧
    (∀ r c (row : list pyval), grid !! r = Some row → length row ≤ c → cell_at sh r c = None) ∧
    (∀ r c, length grid ≤ r → cell_at sh r c = None) ∧
    NoDup ((λ cell : nat * nat * string, cell.1) <$> sheet_cells sh) ∧
    length (sheet_cells sh) = sum_list (length <$> grid).
Proof.
  intros Hin Hne Hcells Hsave. exists (Sheet "Sheet1" (grid_cells grid)).
  split; [|split; [|split; [|split; [|split]]]].
  - rewrite run_two_args. by rewrite (generate_xls_converts inp out w grid).
  - intros r c. apply find_cell_grid.
  - intros r c row Hr Hc. unfold cell_at. simpl.
    rewrite find_cell_grid, Hr. simpl. by rewrite (lookup_ge_None_2 row c).
  - intros r c Hr. unfold cell_at. simpl.
    by rewrite find_cell_grid, (lookup_ge_None_2 grid r).
  - apply grid_cells_positions_NoDup.
  - apply grid_cells_length.
Qed.

(** C7. Whatever exception leaves [generate_xls], be it from the read,
    the parse, a cell or the save, the top level turns it into status 1
    and the one line [Error: <message>] on standard error; nothing is
    written to standard output, and the exception surfaced after a
    single [open] and at most a single [save]: nothing was retried. *)
Theorem failure_reported_once argv0 inp out w e w' :
  generate_xls inp out w = (Raised e, w') →
  run argv0 [inp; out] w
  = (1%Z, World (files w') (trace w' ++ [EvStderr ("Error: " +:+ exn_str e)])) ∧
  stderr_of (trace (run argv0 [inp; out] w).2)
  = stderr_of (trace w) ++ ["Error: " +:+ exn_str e] ∧
  stdout_of (trace (run argv0 [inp; out] w).2) = stdout_of (trace w) ∧
  (trace w' = trace w ++ [EvOpen inp] ∨ trace w' = trace w ++ [EvOpen inp; EvSave out]).
Proof.
  intros Hraised. pose proof (generate_xls_endings inp out w _ _ Hraised) as Hend.
  rewrite run_two_args, Hraised. simpl.
  assert (Htrace : trace w' = trace w ++ [EvOpen inp] ∨
                   trace w' = trace w ++ [EvOpen inp; EvSave out]).
  { destruct Hend as [[_ Ht]|(wb & partial & _ & Ht)]; [by left|by right]. }
  split; [done|].
  rewrite stderr_of_app, stdout_of_app. simpl.
  assert (Hquiet : stderr_of (trace w') = stderr_of (trace w) ∧
                   stdout_of (trace w') = stdout_of (trace w)).
  { destruct Htrace as [-> | ->]; rewrite stderr_of_app, stdout_of_app; simpl;
      by rewrite !app_nil_r. }
  destruct Hquiet as [-> ->]. by rewrite app_nil_r.
Qed.

(** C8. With any number of arguments other than two, the run prints the
    usage line on standard error and ends with status 1; that line is
    all that happens: no file is opened and none is written. *)
Theorem wrong_argument_count_usage argv0 args w :
  length args ≠ 2 →
  run argv0 args w
  = (1%Z, World (files w)
                (trace w ++ [EvStderr ("Usage: " +:+ argv0 +:+ " <input_json> <output_xls>")])).
Proof. apply run_usage. Qed.

(** C9. When [rows] holds a falsy value, such as null, false, 0, the
    empty string or the empty object, the run ends as for the empty
    list: status 1, the no-rows error on standard error, no file
    written, and no type error although the value is not a list. *)
Theorem falsy_rows_rejected argv0 inp out w rows :
  input_has_rows w inp rows →
  truthy rows = false →
  run argv0 [inp; out] w
  = (1%Z, World (files w)
                (trace w ++ [EvOpen inp; EvStderr "Error: No rows in input data"])).
Proof.
  intros Hin Hfalsy.
  destruct (input_has_rows_get _ _ _ Hin) as (text & data & Hfile & Hparse & Hget).
  rewrite run_two_args.
  by rewrite (generate_xls_no_rows inp out w text data rows).
Qed.

(** C10. A non-empty list of rows that are all empty is converted: the
    workbook saved has the single sheet 'Sheet1' with no cell, the
    count reported is the number of rows, and the status is 0. *)
Theorem blank_rows_converted argv0 inp out w grid :
  input_has_rows w inp (rows_value grid) →
  grid ≠ [] →
  Forall (.= []) grid →
  xl_save_err (Workbook "utf-8" [Sheet "Sheet1" []]) out = None →
  run argv0 [inp; out] w
  = (0%Z,
     World (<[out := biff8 (Workbook "utf-8" [Sheet "Sheet1" []])]> (files w))
           (trace w ++ [EvOpen inp; EvSave out;
                        EvStdout ("Generated XLS with " +:+ pretty (length grid) +:+ " rows")])).
Proof.
  intros Hin Hne Hblank Hsave.
  assert (Hwb : workbook_of grid = Workbook "utf-8" [Sheet "Sheet1" []]).
  { unfold workbook_of. by rewrite (grid_cells_blank grid Hblank). }
  rewrite run_two_args, (generate_xls_converts inp out w grid); rewrite ?Hwb; try done.
  intros r c row v Hr Hc. rewrite Forall_forall in Hblank.
  rewrite (Hblank row) in Hc; [done|]. by apply list_elem_of_lookup_2 with r.
Qed.

End Properties.

(** ** The properties at work on the demonstration platform *)

#[local] Existing Instance Demo.platform.

Lemma cells_written_in_place_witness :
  ∃ sh : sheet,
    run "generate_xls.py" ["names.json"; "out.xls"] Demo.boot
    = (0%Z,
       World (<["out.xls" := Demo.dump (Workbook "utf-8" [sh])]> Demo.disk)
             [EvOpen "names.json"; EvSave "out.xls"; EvStdout "Generated XLS with 3 rows"]) ∧
    sheet_cells sh
    = [(0, 0, "Name"); (0, 1, "Age"); (1, 0, "Alice"); (1, 1, "30"); (2, 0, ""); (2, 1, "25")] ∧
    ∀ r c (row : list pyval) (v : pyval),
      Demo.names !! r = Some row → row !! c = Some v →
      cell_at sh r c = Some (match v with PNone => "" | _ => py_str v end).
Proof.
  apply (cells_written_in_place (H := Demo.platform)
           "generate_xls.py" "names.json" "out.xls" Demo.boot Demo.names).
  - apply demo_input_has_rows with Demo.names_json; vm_compute; reflexivity.
  - discriminate.
  - apply demo_fits_accepted. vm_compute. reflexivity.
  - vm_compute. reflexivity.
Defined.

Lemma empty_rows_rejected_witness :
  py_get (PDict [("title", PInt 1)]) "rows" (PList []) = inr (PList []) ∧
  run "generate_xls.py" ["norows.json"; "out.xls"] Demo.boot
  = (1%Z, World Demo.disk [EvOpen "norows.json"; EvStderr "Error: No rows in input data"]).
Proof.
  apply (empty_rows_rejected (H := Demo.platform)
           "generate_xls.py" "norows.json" "out.xls" Demo.boot
           ("{" +:+ Demo.quoted "title" +:+ ": 1}") [("title", PInt 1)]).
  - vm_compute. reflexivity.
  - vm_compute. reflexivity.
  - left. vm_compute. reflexivity.
Defined.

Lemma row_count_reported_witness :
  py_len (rows_value Demo.names) = inr 3 ∧
  (run "generate_xls.py" ["names.json"; "out.xls"] Demo.boot).1 = 0%Z ∧
  stdout_of (trace (run "generate_xls.py" ["names.json"; "out.xls"] Demo.boot).2)
  = ["Generated XLS with 3 rows"] ∧
  stderr_of (trace (run "generate_xls.py" ["names.json"; "out.xls"] Demo.boot).2) = [].
Proof.
  apply (row_count_reported (H := Demo.platform)
           "generate_xls.py" "names.json" "out.xls" Demo.boot Demo.names).
  - apply demo_input_has_rows with Demo.names_json; vm_compute; reflexivity.
  - discriminate.
  - apply demo_fits_accepted. vm_compute. reflexivity.
  - vm_compute. reflexivity.
Defined.

Lemma malformed_json_rejected_witness :
  run "generate_xls.py" ["broken.json"; "out.xls"] Demo.boot
  = (1%Z, World Demo.disk
                [EvOpen "broken.json";
                 EvStderr "Error: Expecting value: line 1 column 1 (char 0)"]).
Proof.
  apply (malformed_json_rejected (H := Demo.platform)
           "generate_xls.py" "broken.json" "out.xls" Demo.boot "not json"
           (Exn "JSONDecodeError" "Expecting value: line 1 column 1 (char 0)")).
  - vm_compute. reflexivity.
  - vm_compute. reflexivity.
Defined.

Lemma ragged_rows_written_as_given_witness :
  ∃ sh : sheet,
    run "generate_xls.py" ["ragged.json"; "out.xls"] Demo.boot
    = (0%Z,
       World (<["out.xls" := Demo.dump (Workbook "utf-8" [sh])]> Demo.disk)
             [EvOpen "ragged.json"; EvSave "out.xls"; EvStdout "Generated XLS with 4 rows"]) ∧
    (∀ r c, cell_at sh r c = cell_text <$> (Demo.ragged !! r ≫= (.!! c))) ∧
    (∀ r c (row : list pyval), Demo.ragged !! r = Some row → length row ≤ c →
       cell_at sh r c = None) ∧
    (∀ r c, 4 ≤ r → cell_at sh r c = None) ∧
    NoDup ((λ cell : nat * nat * string, cell.1) <$> sheet_cells sh) ∧
    length (sheet_cells sh) = 6.
Proof.
  apply (ragged_rows_written_as_given (H := Demo.platform)
           "generate_xls.py" "ragged.json" "out.xls" Demo.boot Demo.ragged).
  - apply demo_input_has_rows with Demo.ragged_json; vm_compute; reflexivity.
  - discriminate.
  - apply demo_fits_accepted. vm_compute. reflexivity.
  - vm_compute. reflexivity.
Defined.

Lemma failure_reported_once_witness :
  run "generate_xls.py" ["missing.json"; "out.xls"] Demo.boot
  = (1%Z, World Demo.disk
                [EvOpen "missing.json";
                 EvStderr "Error: [Errno 2] No such file or directory: 'missing.json'"]) ∧
  stderr_of (trace (run "generate_xls.py" ["missing.json"; "out.xls"] Demo.boot).2)
  = ["Error: [Errno 2] No such file or directory: 'missing.json'"] ∧
  stdout_of (trace (run "generate_xls.py" ["missing.json"; "out.xls"] Demo.boot).2) = [] ∧
  ([EvOpen "missing.json"] = [EvOpen "missing.json"] ∨
   [EvOpen "missing.json"] = [EvOpen "missing.json"; EvSave "out.xls"]).
Proof.
  apply (failure_reported_once (H := Demo.platform)
           "generate_xls.py" "missing.json" "out.xls" Demo.boot
           (Exn "FileNotFoundError" "[Errno 2] No such file or directory: 'missing.json'")
           (World Demo.disk [EvOpen "missing.json"])).
  vm_compute. reflexivity.
Defined.

Lemma wrong_argument_count_usage_witness :
  run "generate_xls.py" ["names.json"] Demo.boot
  = (1%Z, World Demo.disk [EvStderr "Usage: generate_xls.py <input_json> <output_xls>"]).
Proof.
  apply (wrong_argument_count_usage (H := Demo.platform)
           "generate_xls.py" ["names.json"] Demo.boot).
  simpl. lia.
Defined.

Lemma falsy_rows_rejected_witness :
  run "generate_xls.py" ["null.json"; "out.xls"] Demo.boot
  = (1%Z, World Demo.disk [EvOpen "null.json"; EvStderr "Error: No rows in input data"]).
Proof.
  apply (falsy_rows_rejected (H := Demo.platform)
           "generate_xls.py" "null.json" "out.xls" Demo.boot PNone).
  - apply demo_input_has_rows with ("{" +:+ Demo.quoted "rows" +:+ ": null}");
      vm_compute; reflexivity.
  - reflexivity.
Defined.

Lemma blank_rows_converted_witness :
  run "generate_xls.py" ["blank.json"; "out.xls"] Demo.boot
  = (0%Z,
     World (<["out.xls" := "[Sheet1]"]> Demo.disk)
           [EvOpen "blank.json"; EvSave "out.xls"; EvStdout "Generated XLS with 1 rows"]).
Proof.
  apply (blank_rows_converted (H := Demo.platform)
           "generate_xls.py" "blank.json" "out.xls" Demo.boot [[]]).
  - apply demo_input_has_rows with ("{" +:+ Demo.quoted "rows" +:+ ": [[]]}");
      vm_compute; reflexivity.
  - discriminate.
  - repeat constructor.
  - vm_compute. reflexivity.
Defined.


(** ** Every way through [generate_xls] *)

Section Paths.
Context `{Platform}.

(** Only the output path can change. *)
Lemma generate_xls_frame inp out w r w' p :
  generate_xls inp out w = (r, w') →
  p ≠ out →
  files w' !! p = files w !! p.
Proof.
  unfold generate_xls, mbind, M_bind, read_file. intros Hrun Hp. revert Hrun.
  destruct (files w !! inp) as [text|]; [|by intros [= <- <-]].
  destruct (json_load text) as [e|data]; simpl; [by intros [= <- <-]|].
  destruct (py_get data "rows" (PList [])) as [e|rows]; simpl; [by intros [= <- <-]|].
  destruct (truthy rows); simpl; [|by intros [= <- <-]].
  destruct (py_iter rows) as [e|rows_seq]; simpl; [by intros [= <- <-]|].
  destruct (write_rows 0 0 rows_seq _) as [e|wb]; simpl; [by intros [= <- <-]|].
  unfold workbook_save; simpl.
  destruct (xl_save_err wb out) as [[e [partial|]]|]; simpl.
  - intros [= <- <-]. simpl. by rewrite lookup_insert_ne.
  - by intros [= <- <-].
  - destruct (py_len rows) as [e|n]; simpl; intros [= <- <-]; simpl;
      by rewrite lookup_insert_ne.
Qed.

(** A normal end, read backwards. *)
Lemma generate_xls_ok_inv inp out w w' :
  generate_xls inp out w = (Ok tt, w') →
  ∃ text data rows rows_seq wb n,
    files w !! inp = Some text ∧
    json_load text = inr data ∧
    py_get data "rows" (PList []) = inr rows ∧
    truthy rows = true ∧
    py_iter rows = inr rows_seq ∧
    write_rows 0 0 rows_seq (Workbook "utf-8" [Sheet "Sheet1" []]) = inr wb ∧
    xl_save_err wb out = None ∧
    py_len rows = inr n ∧
    w' = World (<[out := biff8 wb]> (files w))
               (trace w ++ [EvOpen inp; EvSave out;
                            EvStdout ("Generated XLS with " +:+ pretty n +:+ " rows")]).
Proof.
  unfold generate_xls, mbind, M_bind, read_file.
  destruct (files w !! inp) as [text|] eqn:Hfile; [|by intros [=]].
  destruct (json_load text) as [e|data] eqn:Hparse; simpl; [by intros [=]|].
  destruct (py_get data "rows" (PList [])) as [e|rows] eqn:Hget; simpl; [by intros [=]|].
  destruct (truthy rows) eqn:Htruthy; simpl; [|by intros [=]].
  destruct (py_iter rows) as [e|rows_seq] eqn:Hiter; simpl; [by intros [=]|].
  destruct (write_rows 0 0 rows_seq _) as [e|wb] eqn:Hloops; simpl; [by intros [=]|].
  unfold workbook_save; simpl.
  destruct (xl_save_err wb out) as [[e [partial|]]|] eqn:Hsave; simpl;
    [by intros [=]..|].
  destruct (py_len rows) as [e|n] eqn:Hlen; simpl; [by intros [=]|].
  unfold print_stdout. intros [= <-].
  exists text, data, rows, rows_seq, wb, n. repeat split; try done.
  unfold emit; simpl. by rewrite <- !app_assoc.
Qed.

Lemma chars_nonempty a s : chars (String a s) ≠ [].
Proof.
  unfold chars. simpl. destruct (code_points s) as [pending points].
  by destruct (is_continuation a).
Qed.

Lemma py_iter_len rows rows_seq :
  py_iter rows = inr rows_seq → py_len rows = inr (length rows_seq).
Proof.
  destruct rows; simpl; intros [= <-]; try done; by rewrite length_fmap.
Qed.

Lemma py_iter_truthy rows rows_seq :
  py_iter rows = inr rows_seq → rows_seq ≠ [] → truthy rows = true.
Proof.
  destruct rows as [| | | |s|items|bindings]; simpl; intros [= <-] Hne; try done.
  - by destruct s.
  - by destruct items.
  - by destruct bindings.
Qed.

(** The loops over rows that iterate. *)
Lemma write_rows_iterable sh rows_seq grid :
  Forall2 (λ row cells, py_iter row = inr cells) rows_seq grid →
  ∀ r0 wb,
    (∀ r c row v, grid !! r = Some row → row !! c = Some v →
       xl_write_err (r0 + r) c (cell_text v) = None) →
    write_rows sh r0 rows_seq wb
    = inr (append_cells sh (mjoin (imap (λ r, row_cells (r0 + r)) grid)) wb).
Proof.
  induction 1 as [|row cells rows_seq grid Hrow _ IH]; intros r0 wb Hok; simpl.
  - by rewrite append_cells_nil.
  - rewrite Hrow. simpl.
    rewrite (write_cells_accepted sh r0 cells 0 wb); last first.
    { intros i v Hi. specialize (Hok 0 i cells v eq_refl Hi). by rewrite Nat.add_0_r in Hok. }
    simpl. rewrite IH; last first.
    { intros r c row' v Hr Hc. specialize (Hok (S r) c row' v Hr Hc).
      by rewrite Nat.add_succ_r in Hok. }
    rewrite append_cells_app. do 2 f_equal. rewrite Nat.add_0_r. f_equal.
    f_equal. apply imap_ext. intros i x _; simpl. by rewrite Nat.add_succ_r.
Qed.

Lemma generate_xls_converts_iterable inp out w rows grid :
  input_has_rows w inp rows →
  iterates_to rows grid →
  grid ≠ [] →
  cells_accepted grid →
  xl_save_err (workbook_of grid) out = None →
  generate_xls inp out w
  = (Ok tt,
     World (<[out := biff8 (workbook_of grid)]> (files w))
           (trace w ++ [EvOpen inp; EvSave out;
                        EvStdout ("Generated XLS with " +:+ pretty (length grid) +:+ " rows")])).
Proof.
  intros Hin (rows_seq & Hiter & Hrows) Hne Hcells Hsave.
  destruct (input_has_rows_get _ _ _ Hin) as (text & data & Hfile & Hparse & Hget).
  assert (Hlen : length rows_seq = length grid) by by eapply Forall2_length.
  assert (Htruthy : truthy rows = true).
  { apply (py_iter_truthy rows rows_seq Hiter). intros ->. by destruct grid. }
  unfold generate_xls, mbind, M_bind, read_file.
  rewrite Hfile, Hparse. simpl. rewrite Hget. simpl. rewrite Htruthy. simpl.
  rewrite Hiter. simpl.
  rewrite (write_rows_iterable 0 rows_seq grid Hrows 0); last first.
  { intros r c row v Hr Hc. by apply (Hcells r c row v). }
  simpl. change (append_cells _ _ _) with (workbook_of grid).
  unfold workbook_save. rewrite Hsave. simpl.
  rewrite (py_iter_len rows rows_seq Hiter). simpl. rewrite Hlen.
  unfold print_stdout, emit; simpl. by rewrite <- !app_assoc.
Qed.

(** A row that does not iterate ends the loops with its [TypeError]. *)
Lemma write_rows_bad_row sh grid bad rest e : ∀ r0 wb,
  py_iter bad = inl e →
  (∀ r c row v, grid !! r = Some row → row !! c = Some v →
     xl_write_err (r0 + r) c (cell_text v) = None) →
  write_rows sh r0 ((PList <$> grid) ++ bad :: rest) wb = inl e.
Proof.
  induction grid as [|row grid IH]; intros r0 wb Hbad Hok; simpl.
  - by rewrite Hbad.
  - rewrite (write_cells_accepted sh r0 row 0 wb); last first.
    { intros i v Hi. specialize (Hok 0 i row v eq_refl Hi). by rewrite Nat.add_0_r in Hok. }
    simpl. apply IH; [done|].
    intros r c row' v Hr Hc. specialize (Hok (S r) c row' v Hr Hc).
    by rewrite Nat.add_succ_r in Hok.
Qed.

Lemma py_iter_nonempty rows rows_seq :
  py_iter rows = inr rows_seq → truthy rows = true → rows_seq ≠ [].
Proof.
  destruct rows as [| | | |s|items|bindings]; intros Hiter Htruthy; try done.
  - injection Hiter as <-. destruct s as [|a s]; [done|].
    intros Hnil. apply fmap_nil_inv in Hnil. by apply chars_nonempty in Hnil.
  - injection Hiter as <-. by destruct items.
  - injection Hiter as <-. destruct bindings as [|[k v] bindings]; [done|].
    intros Hnil. apply fmap_nil_inv in Hnil.
    assert (Hin : k ∈ dict_keys ((k, v) :: bindings)).
    { unfold dict_keys. apply elem_of_remove_dups. simpl. by left. }
    rewrite Hnil in Hin. by apply elem_of_nil in Hin.
Qed.

(** The loops, read backwards: when they end normally every row iterated
    and every cell was taken. *)
Lemma write_cells_inv sh r cells : ∀ c0 wb wb',
  write_cells sh r c0 cells wb = inr wb' →
  ∀ i v, cells !! i = Some v → xl_write_err r (c0 + i) (cell_text v) = None.
Proof.
  induction cells as [|x cells IH]; intros c0 wb wb' Hrun i v Hi; [done|].
  simpl in Hrun. unfold sheet_write in Hrun.
  destruct (xl_write_err r c0 (cell_text x)) as [e|] eqn:Hx; [done|].
  simpl in Hrun. destruct i as [|i]; simpl in Hi.
  - injection Hi as <-. by rewrite Nat.add_0_r.
  - rewrite Nat.add_succ_r, <- Nat.add_succ_l. by eapply IH.
Qed.

Lemma write_rows_inv sh rows_seq : ∀ r0 wb wb',
  write_rows sh r0 rows_seq wb = inr wb' →
  ∃ grid,
    Forall2 (λ row cells, py_iter row = inr cells) rows_seq grid ∧
    ∀ r c row v, grid !! r = Some row → row !! c = Some v →
      xl_write_err (r0 + r) c (cell_text v) = None.
Proof.
  induction rows_seq as [|x rows_seq IH]; intros r0 wb wb' Hrun.
  - exists []. split; [constructor|]. by intros r c row v Hr.
  - simpl in Hrun. destruct (py_iter x) as [e|cells] eqn:Hx; [done|].
    simpl in Hrun.
    destruct (write_cells sh r0 0 cells wb) as [e|wb1] eqn:Hcells; [done|].
    simpl in Hrun. apply IH in Hrun as (grid & Hgrid & Hok).
    exists (cells :: grid). split; [by constructor|].
    intros [|r] c row v Hr Hc; simpl in Hr.
    + injection Hr as <-. rewrite Nat.add_0_r.
      by apply (write_cells_inv sh r0 cells 0 wb wb1 Hcells c v).
    + rewrite Nat.add_succ_r, <- Nat.add_succ_l. by eapply Hok.
Qed.

End Paths.

(** ** Decimal numerals read back *)





(** ** Further properties of the command *)

Section Further.
Context `{Platform}.

(** X1. Whatever the arguments and the files, the [__main__] block ends
    normally or through [sys.exit(1)]: no exception leaves it, so the
    interpreter never prints a traceback. *)
Theorem no_uncaught_exception argv0 args w :
  ∃ w', main argv0 args w = (Ok tt, w') ∨ main argv0 args w = (Exited 1, w').
Proof.
  unfold main. destruct (length (argv0 :: args) =? 3) eqn:Hlen; simpl.
  - apply Nat.eqb_eq in Hlen. destruct args as [|inp [|out [|]]]; try done.
    unfold mbind, M_bind, try_except; simpl.
    destruct (generate_xls inp out w) as [[[]|e|code] w'] eqn:Hrun.
    + exists w'. by left.
    + eexists. by right.
    + apply generate_xls_endings in Hrun as (-> & _). exists w'. by right.
  - eexists. by right.
Qed.

(** X2. Every run prints exactly one line: the row count on standard
    output when the status is 0, a message on standard error when it is
    1; there is no other status, and the other stream stays silent. *)
Theorem one_line_per_run argv0 args w :
  ((run argv0 args w).1 = 0%Z ∧
   stderr_of (trace (run argv0 args w).2) = stderr_of (trace w) ∧
   ∃ n : nat, stdout_of (trace (run argv0 args w).2)
              = stdout_of (trace w) ++ ["Generated XLS with " +:+ pretty n +:+ " rows"]) ∨
  ((run argv0 args w).1 = 1%Z ∧
   stdout_of (trace (run argv0 args w).2) = stdout_of (trace w) ∧
   ∃ line : string, stderr_of (trace (run argv0 args w).2) = stderr_of (trace w) ++ [line]).
Proof.
  destruct (decide (length args = 2)) as [Hlen|Hlen]; last first.
  { right. rewrite run_usage by done. simpl.
    rewrite stdout_of_app, stderr_of_app. simpl. rewrite app_nil_r. eauto. }
  destruct args as [|inp [|out [|]]]; try done. rewrite run_two_args.
  destruct (generate_xls inp out w) as [[[]|e|code] w'] eqn:Hrun; simpl.
  - left. apply generate_xls_ok_inv in Hrun
      as (text & data & rows & rows_seq & wb & n & _ & _ & _ & _ & _ & _ & _ & _ & ->).
    simpl. rewrite stdout_of_app, stderr_of_app. simpl. rewrite app_nil_r. eauto.
  - right. apply generate_xls_endings in Hrun as Hend.
    rewrite stdout_of_app, stderr_of_app. simpl.
    destruct Hend as [[_ ->]|(wb & partial & _ & ->)];
      rewrite stdout_of_app, stderr_of_app; simpl; rewrite !app_nil_r; eauto.
  - right. apply generate_xls_endings in Hrun as (-> & _ & ->).
    rewrite stdout_of_app, stderr_of_app. simpl. rewrite app_nil_r. eauto.
Qed.

(** X3. A run changes no file but the one named by its second argument. *)
Theorem other_files_untouched argv0 args w p :
  args !! 1 ≠ Some p →
  files (run argv0 args w).2 !! p = files w !! p.
Proof.
  intros Hp. destruct (decide (length args = 2)) as [Hlen|Hlen]; last first.
  { by rewrite run_usage. }
  destruct args as [|inp [|out [|]]]; try done. rewrite run_two_args.
  assert (Hne : p ≠ out) by (intros ->; by apply Hp).
  destruct (generate_xls inp out w) as [[[]|e|code] w'] eqn:Hrun; simpl;
    by apply (generate_xls_frame inp out w _ w' p Hrun).
Qed.

(** X4. Status 0 is reached on one path only: two arguments, an input
    that holds an object whose [rows] iterates, row by row, to a non-empty
    grid of cells xlwt takes, and a save that went through; the run then
    leaves the workbook of that grid at the output path and reports the
    number of rows. *)
Theorem success_means_saved argv0 args w :
  (run argv0 args w).1 = 0%Z →
  ∃ inp out rows grid,
    args = [inp; out] ∧
    input_has_rows w inp rows ∧
    iterates_to rows grid ∧
    grid ≠ [] ∧
    cells_accepted grid ∧
    xl_save_err (workbook_of grid) out = None ∧
    (run argv0 args w).2
    = World (<[out := biff8 (workbook_of grid)]> (files w))
            (trace w ++ [EvOpen inp; EvSave out;
                         EvStdout ("Generated XLS with " +:+ pretty (length grid) +:+ " rows")]).
Proof.
  destruct (decide (length args = 2)) as [Hlen|Hlen]; last first.
  { by rewrite run_usage. }
  destruct args as [|inp [|out [|]]]; try done. rewrite run_two_args.
  destruct (generate_xls inp out w) as [[[]|e|code] w'] eqn:Hrun; simpl; [|done|].
  - intros _. apply generate_xls_ok_inv in Hrun
      as (text & data & rows & rows_seq & wb & n
          & Hfile & Hparse & Hget & Htruthy & Hiter & Hloops & Hsave & Hlen' & ->).
    destruct (write_rows_inv _ _ _ _ _ Hloops) as (grid & Hgrid & Hok).
    rewrite (write_rows_iterable 0 rows_seq grid Hgrid 0 _ Hok) in Hloops.
    injection Hloops as <-.
    change (append_cells _ _ _) with (workbook_of grid) in *.
    rewrite (py_iter_len rows rows_seq Hiter) in Hlen'. injection Hlen' as <-.
    assert (Hlength : length rows_seq = length grid) by by eapply Forall2_length.
    exists inp, out, rows, grid. repeat split; try done.
    + destruct data as [| | | | | |bindings]; try done.
      exists text, bindings. repeat split; [done..|].
      simpl in Hget. destruct (dict_lookup "rows" bindings) as [v|]; simpl in Hget.
      * by injection Hget as ->.
      * injection Hget as <-. done.
    + by exists rows_seq.
    + intros ->. apply Forall2_nil_inv_r in Hgrid as ->.
      by apply (py_iter_nonempty rows [] Hiter Htruthy).
    + by rewrite Hlength.
  - apply generate_xls_endings in Hrun as (-> & _). done.
Qed.

(** X5. A document that is valid JSON but not an object (an array, a
    number, a string, null) has no [get]: the run ends with status 1 and
    the [AttributeError] message, and writes no file. *)
Theorem non_object_document_rejected argv0 inp out w text data :
  files w !! inp = Some text →
  json_load text = inr data →
  (∀ bindings, data ≠ PDict bindings) →
  run argv0 [inp; out] w
  = (1%Z, World (files w)
                (trace w ++ [EvOpen inp;
                             EvStderr ("Error: '" +:+ type_name data
                                       +:+ "' object has no attribute 'get'")])).
Proof.
  intros Hfile Hparse Hdata.
  rewrite run_two_args, (generate_xls_not_a_dict inp out w text data) by done.
  simpl. by rewrite <- app_assoc.
Qed.

(** X6. A truthy [rows] that does not iterate (a non-zero number, true)
    passes the emptiness test and fails at the loop: status 1, the
    [TypeError] message, no file written and no save attempted. *)
Theorem non_iterable_rows_rejected argv0 inp out w rows :
  input_has_rows w inp rows →
  truthy rows = true →
  py_iter rows = inl (TypeError_not_iterable rows) →
  run argv0 [inp; out] w
  = (1%Z, World (files w)
                (trace w ++ [EvOpen inp;
                             EvStderr ("Error: '" +:+ type_name rows
                                       +:+ "' object is not iterable")])).
Proof.
  intros Hin Htruthy Hiter.
  destruct (input_has_rows_get _ _ _ Hin) as (text & data & Hfile & Hparse & Hget).
  rewrite run_two_args. unfold generate_xls, mbind, M_bind, read_file.
  rewrite Hfile, Hparse. simpl. rewrite Hget. simpl. rewrite Htruthy. simpl.
  rewrite Hiter. simpl. unfold emit; simpl. by rewrite <- app_assoc.
Qed.

(** X7. A row that does not iterate, after rows that were fine, ends the
    run with status 1 and its [TypeError] message; the rows before it
    were written to the workbook in memory only: no file is written. *)
Theorem non_iterable_row_rejected argv0 inp out w grid bad rest :
  input_has_rows w inp (PList ((PList <$> grid) ++ bad :: rest)) →
  py_iter bad = inl (TypeError_not_iterable bad) →
  cells_accepted grid →
  run argv0 [inp; out] w
  = (1%Z, World (files w)
                (trace w ++ [EvOpen inp;
                             EvStderr ("Error: '" +:+ type_name bad
                                       +:+ "' object is not iterable")])).
Proof.
  intros Hin Hbad Hcells.
  destruct (input_has_rows_get _ _ _ Hin) as (text & data & Hfile & Hparse & Hget).
  rewrite run_two_args. unfold generate_xls, mbind, M_bind, read_file.
  rewrite Hfile, Hparse. simpl. rewrite Hget.
  assert (Htruthy : truthy (PList ((PList <$> grid) ++ bad :: rest)) = true).
  { simpl. by destruct grid. }
  cbn [of_sum mret M_ret]. rewrite Htruthy. cbn [negb py_iter of_sum mret M_ret add_sheet].
  simpl length. cbn [wb_sheets wb_encoding app].
  rewrite (write_rows_bad_row 0 grid bad rest (TypeError_not_iterable bad) 0);
    [|done|]; last first.
  { intros r c row v Hr Hc. by apply (Hcells r c row v). }
  simpl. unfold emit; simpl. by rewrite <- app_assoc.
Qed.

(** X8. The loops take any iterable: when [rows] and each row iterate (a
    list, a string by its code points, an object by its keys) to a grid
    xlwt takes, and the save goes through, the run succeeds like that of
    the list of lists they iterate to, and reports the number of rows
    iterated. *)
Theorem iterable_rows_converted argv0 inp out w rows grid :
  input_has_rows w inp rows →
  iterates_to rows grid →
  grid ≠ [] →
  cells_accepted grid →
  xl_save_err (workbook_of grid) out = None →
  run argv0 [inp; out] w
  = (0%Z,
     World (<[out := biff8 (Workbook "utf-8" [Sheet "Sheet1" (grid_cells grid)])]> (files w))
           (trace w ++ [EvOpen inp; EvSave out;
                        EvStdout ("Generated XLS with " +:+ pretty (length grid) +:+ " rows")])) ∧
  ∀ r c, cell_at (Sheet "Sheet1" (grid_cells grid)) r c
         = cell_text <$> (grid !! r ≫= (.!! c)).
Proof.
  intros Hin Hiter Hne Hcells Hsave. split.
  - rewrite run_two_args.
    by rewrite (generate_xls_converts_iterable inp out w rows grid).
  - intros r c. apply find_cell_grid.
Qed.

(** X9. When xlwt takes the cells and the save goes through, a row given
    as a string is written one character (code point) per column, and the
    rows are counted as any other. *)
Theorem string_row_one_character_per_column argv0 inp out w strs :
  input_has_rows w inp (PList (PStr <$> strs)) →
  strs ≠ [] →
  cells_accepted ((λ s, PStr <$> chars s) <$> strs) →
  xl_save_err (workbook_of ((λ s, PStr <$> chars s) <$> strs)) out = None →
  ∃ sh : sheet,
    run argv0 [inp; out] w
    = (0%Z,
       World (<[out := biff8 (Workbook "utf-8" [sh])]> (files w))
             (trace w ++ [EvOpen inp; EvSave out;
                          EvStdout ("Generated XLS with " +:+ pretty (length strs) +:+ " rows")])) ∧
    ∀ r c (s : string), strs !! r = Some s → cell_at sh r c = chars s !! c.
Proof.
  intros Hin Hne Hcells Hsave.
  set (grid := (λ s, PStr <$> chars s) <$> strs) in *.
  exists (Sheet "Sheet1" (grid_cells grid)). split.
  - rewrite run_two_args.
    rewrite (generate_xls_converts_iterable inp out w _ grid Hin); try done.
    + unfold grid. by rewrite length_fmap.
    + exists (PStr <$> strs). split; [done|].
      unfold grid. apply Forall2_fmap, Forall_Forall2_diag, Forall_forall.
      by intros s _.
    + unfold grid. by destruct strs.
  - intros r c s Hs. unfold cell_at. simpl. rewrite find_cell_grid.
    unfold grid. rewrite list_lookup_fmap, Hs. simpl.
    rewrite list_lookup_fmap. by destruct (chars s !! c).
Qed.

(** X10. When the save fails, the run ends with status 1 and the save's
    message; no row count is printed, and the output path holds what the
    failed save left there, or what it held before. *)
Theorem save_failure_reported argv0 inp out w grid e partial :
  input_has_rows w inp (rows_value grid) →
  grid ≠ [] →
  cells_accepted grid →
  xl_save_err (workbook_of grid) out = Some (e, partial) →
  run argv0 [inp; out] w
  = (1%Z,
     World (from_option (λ bytes, <[out := bytes]> (files w)) (files w) partial)
           (trace w ++ [EvOpen inp; EvSave out; EvStderr ("Error: " +:+ exn_str e)])).
Proof.
  intros Hin Hne Hcells Hsave.
  rewrite run_two_args, (generate_xls_save_fails inp out w grid e partial) by done.
  simpl. by rewrite <- app_assoc.
Qed.

(** X11. The first cell, in row-major order, that xlwt refuses ends the
    run with status 1 and xlwt's message; the save is not attempted and
    no file changes. *)
Theorem refused_cell_reported argv0 inp out w grid r c row v e :
  input_has_rows w inp (rows_value grid) →
  grid !! r = Some row →
  row !! c = Some v →
  xl_write_err r c (cell_text v) = Some e →
  (∀ r' c' (row' : list pyval) (v' : pyval),
     grid !! r' = Some row' → row' !! c' = Some v' →
     r' < r ∨ (r' = r ∧ c' < c) →
     xl_write_err r' c' (cell_text v') = None) →
  run argv0 [inp; out] w
  = (1%Z, World (files w)
                (trace w ++ [EvOpen inp; EvStderr ("Error: " +:+ exn_str e)])).
Proof.
  intros Hin Hr Hc Hno Hbefore.
  rewrite run_two_args, (generate_xls_cell_refused inp out w grid r c row v e) by done.
  simpl. by rewrite <- app_assoc.
Qed.

(** X12. A missing input file ends the run with status 1 and the
    [FileNotFoundError] message naming the path; nothing is written. *)
Theorem missing_input_reported argv0 inp out w :
  files w !! inp = None →
  run argv0 [inp; out] w
  = (1%Z, World (files w)
                (trace w ++ [EvOpen inp;
                             EvStderr ("Error: [Errno 2] No such file or directory: "
                                       +:+ py_repr (PStr inp))])).
Proof.
  intros Hfile. rewrite run_two_args, (generate_xls_unreadable inp out w) by done.
  simpl. by rewrite <- app_assoc.
Qed.

(** X13. Running the command a second time on the files the first run
    left, with an output path other than the input, succeeds again and
    leaves the files as they are: the output is rewritten with the same
    bytes. *)
Theorem rerun_same_output argv0 inp out w grid :
  input_has_rows w inp (rows_value grid) →
  grid ≠ [] →
  cells_accepted grid →
  xl_save_err (workbook_of grid) out = None →
  inp ≠ out →
  (run argv0 [inp; out] (run argv0 [inp; out] w).2).1 = 0%Z ∧
  files (run argv0 [inp; out] (run argv0 [inp; out] w).2).2
  = files (run argv0 [inp; out] w).2.
Proof.
  intros Hin Hne Hcells Hsave Hpaths.
  rewrite (run_two_args argv0 inp out w), (generate_xls_converts inp out w grid) by done.
  simpl. rewrite run_two_args.
  rewrite (generate_xls_converts inp out _ grid); try done.
  - simpl. by rewrite insert_insert_eq.
  - destruct Hin as (text & bindings & Hfile & Hparse & Hrows).
    exists text, bindings. simpl. by rewrite lookup_insert_ne.
Qed.

(** X14. Nothing keeps the output path apart from the input path: given
    the same path twice, a successful run replaces the JSON document by
    the workbook. *)
Theorem in_place_overwrites_input argv0 path w grid :
  input_has_rows w path (rows_value grid) →
  grid ≠ [] →
  cells_accepted grid →
  xl_save_err (workbook_of grid) path = None →
  (run argv0 [path; path] w).1 = 0%Z ∧
  files (run argv0 [path; path] w).2 !! path = Some (biff8 (workbook_of grid)) ∧
  ∀ p, p ≠ path → files (run argv0 [path; path] w).2 !! p = files w !! p.
Proof.
  intros Hin Hne Hcells Hsave.
  rewrite run_two_args, (generate_xls_converts path path w grid) by done.
  simpl. split; [done|]. split; [by rewrite lookup_insert_eq|].
  intros p Hp. by rewrite lookup_insert_ne.
Qed.

(** X15. Of the document only ["rows"] is used: two documents with the
    same [rows], whatever else they hold, give the same status, the same
    files and the same lines on both streams. *)
Theorem other_keys_ignored argv0 inp1 inp2 out w text1 text2 bindings1 bindings2 :
  files w !! inp1 = Some text1 →
  json_load text1 = inr (PDict bindings1) →
  files w !! inp2 = Some text2 →
  json_load text2 = inr (PDict bindings2) →
  dict_lookup "rows" bindings1 = dict_lookup "rows" bindings2 →
  (run argv0 [inp1; out] w).1 = (run argv0 [inp2; out] w).1 ∧
  files (run argv0 [inp1; out] w).2 = files (run argv0 [inp2; out] w).2 ∧
  stdout_of (trace (run argv0 [inp1; out] w).2)
  = stdout_of (trace (run argv0 [inp2; out] w).2) ∧
  stderr_of (trace (run argv0 [inp1; out] w).2)
  = stderr_of (trace (run argv0 [inp2; out] w).2).
Proof.
  intros Hfile1 Hparse1 Hfile2 Hparse2 Hrows.
  rewrite !run_two_args. unfold generate_xls, mbind, M_bind, read_file.
  rewrite Hfile1, Hparse1, Hfile2, Hparse2. simpl. rewrite Hrows.
  destruct (truthy _); simpl.
  - destruct (py_iter _) as [e|rows_seq]; simpl.
    { by rewrite !stdout_of_app, !stderr_of_app. }
    destruct (write_rows 0 0 rows_seq _) as [e|wb]; simpl.
    { by rewrite !stdout_of_app, !stderr_of_app. }
    unfold workbook_save; simpl.
    destruct (xl_save_err wb out) as [[e [partial|]]|]; simpl;
      try by rewrite !stdout_of_app, !stderr_of_app.
    destruct (py_len _) as [e|n]; simpl; by rewrite !stdout_of_app, !stderr_of_app.
  - by rewrite !stdout_of_app, !stderr_of_app.
Qed.


End Further.

(** ** The further properties at work *)

Lemma other_files_untouched_witness :
  files (run (H := Demo.platform) "generate_xls.py" ["names.json"; "out.xls"] Demo.boot).2
    !! "names.json"
  = files Demo.boot !! "names.json".
Proof.
  apply (other_files_untouched (H := Demo.platform)
           "generate_xls.py" ["names.json"; "out.xls"] Demo.boot "names.json").
  simpl. discriminate.
Defined.

Lemma success_means_saved_witness :
  ∃ inp out rows grid,
    ["names.json"; "out.xls"] = [inp; out] ∧
    input_has_rows (H := Demo.platform) Demo.boot inp rows ∧
    iterates_to rows grid ∧
    grid ≠ [] ∧
    cells_accepted (H := Demo.platform) grid ∧
    xl_save_err (Platform := Demo.platform) (workbook_of (H := Demo.platform) grid) out = None ∧
    (run (H := Demo.platform) "generate_xls.py" ["names.json"; "out.xls"] Demo.boot).2
    = World (<[out := Demo.dump (workbook_of (H := Demo.platform) grid)]> Demo.disk)
            [EvOpen inp; EvSave out;
             EvStdout ("Generated XLS with " +:+ pretty (length grid) +:+ " rows")].
Proof.
  apply (success_means_saved (H := Demo.platform)
           "generate_xls.py" ["names.json"; "out.xls"] Demo.boot).
  vm_compute. reflexivity.
Defined.

Lemma non_object_document_rejected_witness :
  run (H := Cases.platform) "generate_xls.py" ["array.json"; "out.xls"] Cases.boot
  = (1%Z, World Cases.disk
                [EvOpen "array.json";
                 EvStderr "Error: 'list' object has no attribute 'get'"]).
Proof.
  apply (non_object_document_rejected (H := Cases.platform)
           "generate_xls.py" "array.json" "out.xls" Cases.boot
           "[1, 2]" (PList [PInt 1; PInt 2])).
  - vm_compute. reflexivity.
  - vm_compute. reflexivity.
  - discriminate.
Defined.

Lemma non_iterable_rows_rejected_witness :
  run (H := Cases.platform) "generate_xls.py" ["number.json"; "out.xls"] Cases.boot
  = (1%Z, World Cases.disk
                [EvOpen "number.json"; EvStderr "Error: 'int' object is not iterable"]).
Proof.
  apply (non_iterable_rows_rejected (H := Cases.platform)
           "generate_xls.py" "number.json" "out.xls" Cases.boot (PInt 5)).
  - exists ("{" +:+ Demo.quoted "rows" +:+ ": 5}"), [("rows", PInt 5)].
    repeat split; vm_compute; reflexivity.
  - reflexivity.
  - reflexivity.
Defined.

Lemma non_iterable_row_rejected_witness :
  run (H := Cases.platform) "generate_xls.py" ["badrow.json"; "out.xls"] Cases.boot
  = (1%Z, World Cases.disk
                [EvOpen "badrow.json"; EvStderr "Error: 'int' object is not iterable"]).
Proof.
  apply (non_iterable_row_rejected (H := Cases.platform)
           "generate_xls.py" "badrow.json" "out.xls" Cases.boot [[PInt 1]] (PInt 5) []).
  - exists ("{" +:+ Demo.quoted "rows" +:+ ": [[1], 5]}"),
      [("rows", PList [PList [PInt 1]; PInt 5])].
    repeat split; vm_compute; reflexivity.
  - reflexivity.
  - apply demo_fits_accepted. vm_compute. reflexivity.
Defined.

Lemma iterable_rows_converted_witness :
  run (H := Cases.platform) "generate_xls.py" ["strings.json"; "out.xls"] Cases.boot
  = (0%Z,
     World (<["out.xls" := "[Sheet1]0,0=a;0,1=b;1,0=c;"]> Cases.disk)
           [EvOpen "strings.json"; EvSave "out.xls"; EvStdout "Generated XLS with 2 rows"]) ∧
  ∀ r c, cell_at (Sheet "Sheet1" [(0, 0, "a"); (0, 1, "b"); (1, 0, "c")]) r c
         = cell_text (H := Cases.platform)
             <$> ([[PStr "a"; PStr "b"]; [PStr "c"]] !! r ≫= (.!! c)).
Proof.
  apply (iterable_rows_converted (H := Cases.platform)
           "generate_xls.py" "strings.json" "out.xls" Cases.boot
           (PList [PStr "ab"; PStr "c"]) [[PStr "a"; PStr "b"]; [PStr "c"]]).
  - exists ("{" +:+ Demo.quoted "rows" +:+ ": [" +:+ Demo.quoted "ab" +:+ ", "
            +:+ Demo.quoted "c" +:+ "]}"),
      [("rows", PList [PStr "ab"; PStr "c"])].
    repeat split; vm_compute; reflexivity.
  - exists [PStr "ab"; PStr "c"]. split; [reflexivity|].
    repeat constructor.
  - discriminate.
  - apply demo_fits_accepted. vm_compute. reflexivity.
  - vm_compute. reflexivity.
Defined.

Lemma string_row_one_character_per_column_witness :
  chars "日本" = ["日"; "本"] ∧
  ∃ sh : sheet,
    run (H := Cases.platform) "generate_xls.py" ["kanji.json"; "out.xls"] Cases.boot
    = (0%Z,
       World (<["out.xls" := Demo.dump (Workbook "utf-8" [sh])]> Cases.disk)
             [EvOpen "kanji.json"; EvSave "out.xls"; EvStdout "Generated XLS with 2 rows"]) ∧
    ∀ r c (s : string), ["日本"; "c"] !! r = Some s → cell_at sh r c = chars s !! c.
Proof.
  split; [vm_compute; reflexivity|].
  apply (string_row_one_character_per_column (H := Cases.platform)
           "generate_xls.py" "kanji.json" "out.xls" Cases.boot ["日本"; "c"]).
  - exists Cases.kanji_json, [("rows", PList [PStr "日本"; PStr "c"])].
    repeat split; vm_compute; reflexivity.
  - discriminate.
  - apply demo_fits_accepted. vm_compute. reflexivity.
  - vm_compute. reflexivity.
Defined.

Lemma save_failure_reported_witness :
  run (H := Cases.platform) "generate_xls.py" ["names.json"; "/full/out.xls"] Cases.boot
  = (1%Z,
     World (<["/full/out.xls" := ""]> Cases.disk)
           [EvOpen "names.json"; EvSave "/full/out.xls";
            EvStderr "Error: [Errno 28] No space left on device"]).
Proof.
  apply (save_failure_reported (H := Cases.platform)
           "generate_xls.py" "names.json" "/full/out.xls" Cases.boot Demo.names
           (Exn "OSError" "[Errno 28] No space left on device") (Some "")).
  - exists Demo.names_json, [("rows", rows_value Demo.names)].
    repeat split; vm_compute; reflexivity.
  - discriminate.
  - apply demo_fits_accepted. vm_compute. reflexivity.
  - vm_compute. reflexivity.
Defined.

Lemma refused_cell_reported_witness :
  run (H := Cases.platform) "generate_xls.py" ["wide.json"; "out.xls"] Cases.boot
  = (1%Z, World Cases.disk
                [EvOpen "wide.json";
                 EvStderr "Error: column index (256) not an int in range(256)"]).
Proof.
  apply (refused_cell_reported (H := Cases.platform)
           "generate_xls.py" "wide.json" "out.xls" Cases.boot [Cases.wide_row]
           0 256 Cases.wide_row (PStr "w")
           (Exn "ValueError" "column index (256) not an int in range(256)")).
  - exists Cases.wide_json, [("rows", rows_value [Cases.wide_row])].
    repeat split; vm_compute; reflexivity.
  - reflexivity.
  - vm_compute. reflexivity.
  - vm_compute. reflexivity.
  - intros r' c' row' v' _ _ Hbefore. simpl. unfold Demo.write_err.
    rewrite decide_False by lia. by rewrite decide_False by lia.
Defined.

Lemma missing_input_reported_witness :
  run (H := Demo.platform) "generate_xls.py" ["absent.json"; "out.xls"] Demo.boot
  = (1%Z, World Demo.disk
                [EvOpen "absent.json";
                 EvStderr "Error: [Errno 2] No such file or directory: 'absent.json'"]).
Proof.
  apply (missing_input_reported (H := Demo.platform)
           "generate_xls.py" "absent.json" "out.xls" Demo.boot).
  vm_compute. reflexivity.
Defined.

Lemma rerun_same_output_witness :
  (run (H := Demo.platform) "generate_xls.py" ["names.json"; "out.xls"]
     (run (H := Demo.platform) "generate_xls.py" ["names.json"; "out.xls"] Demo.boot).2).1
  = 0%Z ∧
  files (run (H := Demo.platform) "generate_xls.py" ["names.json"; "out.xls"]
           (run (H := Demo.platform) "generate_xls.py" ["names.json"; "out.xls"] Demo.boot).2).2
  = files (run (H := Demo.platform) "generate_xls.py" ["names.json"; "out.xls"] Demo.boot).2.
Proof.
  apply (rerun_same_output (H := Demo.platform)
           "generate_xls.py" "names.json" "out.xls" Demo.boot Demo.names).
  - apply demo_input_has_rows with Demo.names_json; vm_compute; reflexivity.
  - discriminate.
  - apply demo_fits_accepted. vm_compute. reflexivity.
  - vm_compute. reflexivity.
  - discriminate.
Defined.

Lemma in_place_overwrites_input_witness :
  (run (H := Demo.platform) "generate_xls.py" ["names.json"; "names.json"] Demo.boot).1 = 0%Z ∧
  files (run (H := Demo.platform) "generate_xls.py" ["names.json"; "names.json"] Demo.boot).2
    !! "names.json"
  = Some "[Sheet1]0,0=Name;0,1=Age;1,0=Alice;1,1=30;2,0=;2,1=25;" ∧
  ∀ p, p ≠ "names.json" →
       files (run (H := Demo.platform) "generate_xls.py" ["names.json"; "names.json"] Demo.boot).2
         !! p
       = files Demo.boot !! p.
Proof.
  apply (in_place_overwrites_input (H := Demo.platform)
           "generate_xls.py" "names.json" Demo.boot Demo.names).
  - apply demo_input_has_rows with Demo.names_json; vm_compute; reflexivity.
  - discriminate.
  - apply demo_fits_accepted. vm_compute. reflexivity.
  - vm_compute. reflexivity.
Defined.

Lemma other_keys_ignored_witness :
  (run (H := Cases.platform) "generate_xls.py" ["titled.json"; "out.xls"] Cases.boot).1
  = (run (H := Cases.platform) "generate_xls.py" ["plain.json"; "out.xls"] Cases.boot).1 ∧
  files (run (H := Cases.platform) "generate_xls.py" ["titled.json"; "out.xls"] Cases.boot).2
  = files (run (H := Cases.platform) "generate_xls.py" ["plain.json"; "out.xls"] Cases.boot).2 ∧
  stdout_of (trace (run (H := Cases.platform) "generate_xls.py" ["titled.json"; "out.xls"] Cases.boot).2)
  = stdout_of (trace (run (H := Cases.platform) "generate_xls.py" ["plain.json"; "out.xls"] Cases.boot).2) ∧
  stderr_of (trace (run (H := Cases.platform) "generate_xls.py" ["titled.json"; "out.xls"] Cases.boot).2)
  = stderr_of (trace (run (H := Cases.platform) "generate_xls.py" ["plain.json"; "out.xls"] Cases.boot).2).
Proof.
  apply (other_keys_ignored (H := Cases.platform)
           "generate_xls.py" "titled.json" "plain.json" "out.xls" Cases.boot
           ("{" +:+ Demo.quoted "title" +:+ ": 1, " +:+ Demo.quoted "rows" +:+ ": [[1]]}")
           ("{" +:+ Demo.quoted "rows" +:+ ": [[1]]}")
           [("title", PInt 1); ("rows", rows_value [[PInt 1]])]
           [("rows", rows_value [[PInt 1]])]).
  - vm_compute. reflexivity.
  - vm_compute. reflexivity.
  - vm_compute. reflexivity.
  - vm_compute. reflexivity.
  - vm_compute. reflexivity.
Defined.


(** ** Where the library's limits and the parser's leniency show *)

(** C1, as stated, fails on a valid document with a row of 257 cells:
    xlwt refuses column 256, the run ends with status 1 and there is no
    output sheet for the cells to be in. *)
Lemma wide_document_leaves_no_sheet :
  Json.valid Cases.wide_json = true ∧
  input_has_rows (H := Cases.platform) Cases.boot "wide.json" (rows_value [Cases.wide_row]) ∧
  [Cases.wide_row] ≠ [] ∧
  (run (H := Cases.platform) "generate_xls.py" ["wide.json"; "out.xls"] Cases.boot).1 = 1%Z ∧
  files (run (H := Cases.platform) "generate_xls.py" ["wide.json"; "out.xls"] Cases.boot).2
  = Cases.disk ∧
  ¬ ∃ sh : sheet,
      files (run (H := Cases.platform) "generate_xls.py" ["wide.json"; "out.xls"] Cases.boot).2
        !! "out.xls"
      = Some (biff8 (Platform := Cases.platform) (Workbook "utf-8" [sh])) ∧
      ∀ r c (row : list pyval) (v : pyval),
        [Cases.wide_row] !! r = Some row → row !! c = Some v →
        cell_at sh r c
        = Some (match v with PNone => "" | _ => py_str (H := Cases.platform) v end).
Proof.
  split; [vm_compute; reflexivity|].
  split.
  { exists Cases.wide_json, [("rows", rows_value [Cases.wide_row])].
    repeat split; vm_compute; reflexivity. }
  split; [discriminate|].
  split; [vm_compute; reflexivity|].
  split; [vm_compute; reflexivity|].
  intros (sh & Hfile & _). vm_compute in Hfile. discriminate.
Qed.

(** C4, as stated, fails on a text that is not JSON and that Python's
    parser takes all the same: the literal NaN.  The run ends with status
    0 and writes the workbook. *)
Lemma nan_document_converted :
  Json.valid Cases.nan_json = false ∧
  files Cases.boot !! "nan.json" = Some Cases.nan_json ∧
  run (H := Cases.platform) "generate_xls.py" ["nan.json"; "out.xls"] Cases.boot
  = (0%Z,
     World (<["out.xls" := "[Sheet1]0,0=nan;"]> Cases.disk)
           [EvOpen "nan.json"; EvSave "out.xls"; EvStdout "Generated XLS with 1 rows"]) ∧
  (run (H := Cases.platform) "generate_xls.py" ["nan.json"; "out.xls"] Cases.boot).1 ≠ 1%Z ∧
  stderr_of (trace (run (H := Cases.platform) "generate_xls.py" ["nan.json"; "out.xls"]
                      Cases.boot).2) = [].
Proof.
  split; [vm_compute; reflexivity|].
  split; [vm_compute; reflexivity|].
  split; [vm_compute; reflexivity|].
  split; [vm_compute; discriminate|].
  vm_compute. reflexivity.
Qed.


(** C6, as stated, fails on rows of differing lengths of which one has
    257 cells: the conversion does not succeed. *)
Lemma ragged_wide_document_fails :
  Json.valid Cases.ragged_wide_json = true ∧
  input_has_rows (H := Cases.platform) Cases.boot "ragged_wide.json"
    (rows_value [[PStr "a"]; Cases.wide_row]) ∧
  length [PStr "a"] ≠ length Cases.wide_row ∧
  (run (H := Cases.platform) "generate_xls.py" ["ragged_wide.json"; "out.xls"] Cases.boot).1
  = 1%Z ∧
  files (run (H := Cases.platform) "generate_xls.py" ["ragged_wide.json"; "out.xls"]
           Cases.boot).2 = Cases.disk ∧
  stdout_of (trace (run (H := Cases.platform) "generate_xls.py" ["ragged_wide.json"; "out.xls"]
                      Cases.boot).2) = [] ∧
  ¬ ∃ sh : sheet,
      run (H := Cases.platform) "generate_xls.py" ["ragged_wide.json"; "out.xls"] Cases.boot
      = (0%Z,
         World (<["out.xls" := biff8 (Platform := Cases.platform) (Workbook "utf-8" [sh])]>
                  Cases.disk)
               [EvOpen "ragged_wide.json"; EvSave "out.xls";
                EvStdout "Generated XLS with 2 rows"]).
Proof.
  split; [vm_compute; reflexivity|].
  split.
  { exists Cases.ragged_wide_json, [("rows", rows_value [[PStr "a"]; Cases.wide_row])].
    repeat split; vm_compute; reflexivity. }
  split; [vm_compute; discriminate|].
  split; [vm_compute; reflexivity|].
  split; [vm_compute; reflexivity|].
  split; [vm_compute; reflexivity|].
  intros (sh & Hrun). apply (f_equal fst) in Hrun. vm_compute in Hrun. discriminate.
Qed.
